(** * CheckAssignIf: assignment / condition mismatches (lib/checkassignif.cpp)

    A shallow embedding of the three analyses of [CheckAssignIf]
    ([assignIf], [comparison], [multiCondition]) over an index-addressed
    token list, together with the properties the specification states
    about them. *)

From Stdlib Require Import List String Ascii ZArith Bool Arith Lia.
Import ListNotations.
Local Open Scope string_scope.
Local Open Scope list_scope.
Local Open Scope nat_scope.

(* ================================================================== *)
(** ** Tokens                                                          *)
(* ================================================================== *)

(** Modelled from the spec: the [Token] class is declared outside the
    analysed sources.  A token carries its text, its source line, its
    variable identity (0 = not a variable), the two lexical classes the
    pattern matcher asks for, and, for brackets, the index of its matching
    counterpart in the same sequence ([None] is the null pointer). *)
Record Token : Type := mkToken {
  str      : string;
  varId    : nat;
  linenr   : nat;
  isName   : bool;
  isNumber : bool;
  link     : option nat
}.

(** A cursor into the token list: [Some i] points at the [i]-th token,
    [None] is the null pointer.  The accessors below send the null
    pointer to a null result; the analyses only apply them to cursors
    that a successful match has shown to be tokens, the one exception
    being [link()->previous()] in [comparison], where a missing link is
    modelled as a fault. *)
Definition cursor := option nat.

Section TokenList.

Variable toks : list Token.

Definition tokenAt (c : cursor) : option Token :=
  match c with
  | Some i => nth_error toks i
  | None => None
  end.

(** [tok->next()] *)
Definition next (c : cursor) : cursor :=
  match c with
  | Some i => if S i <? List.length toks then Some (S i) else None
  | None => None
  end.

(** [tok->previous()] *)
Definition previous (c : cursor) : cursor :=
  match c with
  | Some (S j) => Some j
  | _ => None
  end.

(** [tok->tokAt(n)]: null when the walk leaves the list. *)
Definition tokAt (c : cursor) (n : Z) : cursor :=
  match c with
  | Some i =>
      let j := (Z.of_nat i + n)%Z in
      if ((0 <=? j) && (j <? Z.of_nat (List.length toks)))%Z
      then Some (Z.to_nat j) else None
  | None => None
  end.

(** [tok->str()], the empty string for the null pointer (the
    convention of [strAt]). *)
Definition strOf (c : cursor) : string :=
  match tokenAt c with
  | Some t => str t
  | None => ""
  end.

(** [tok->strAt(n)] *)
Definition strAt (c : cursor) (n : Z) : string := strOf (tokAt c n).

(** [tok->link()] *)
Definition linkOf (c : cursor) : cursor :=
  match tokenAt c with
  | Some t => link t
  | None => None
  end.

(** [tok->linkAt(n)] *)
Definition linkAt (c : cursor) (n : Z) : cursor := linkOf (tokAt c n).

(** [tok->varId()] *)
Definition varIdOf (c : cursor) : nat :=
  match tokenAt c with
  | Some t => varId t
  | None => 0
  end.

(** [tok->linenr()] *)
Definition linenrOf (c : cursor) : nat :=
  match tokenAt c with
  | Some t => linenr t
  | None => 0
  end.

End TokenList.

(* ================================================================== *)
(** ** The pattern matcher                                             *)
(* ================================================================== *)

(** Modelled from the spec: [Token::Match] and [Token::simpleMatch] are
    defined outside the analysed sources.  The matcher is a small
    interpreter over the words of a pattern: literal words, the wildcard
    classes [%var%], [%varid%], [%num%], [%any%], the operator names
    [%or%] and [%oror%], character sets [[abc]] and alternation groups
    [a|b|c]; an alternation with an empty alternative (as in [)|]) may
    match no token at all.  Matching is anchored at a token, consumes the
    tokens left to right and never backtracks. *)
Inductive PatElem : Type :=
| PWord (w : string)
| PVar
| PVarid
| PNum
| PAny
| PChars (cs : string)
| PMulti (alts : list string) (empty : bool).

Fixpoint split_on_aux (sep : ascii) (s acc : string) : list string :=
  match s with
  | EmptyString => [acc]
  | String c s' =>
      if Ascii.eqb c sep then acc :: split_on_aux sep s' ""
      else split_on_aux sep s' (String.append acc (String c ""))
  end.

Definition split_on (sep : ascii) (s : string) : list string :=
  split_on_aux sep s "".

Definition nonempty (s : string) : bool := negb (String.eqb s "").

Fixpoint contains_chr (c : ascii) (s : string) : bool :=
  match s with
  | EmptyString => false
  | String d s' => Ascii.eqb c d || contains_chr c s'
  end.

Fixpoint before_chr (c : ascii) (s : string) : string :=
  match s with
  | EmptyString => ""
  | String d s' => if Ascii.eqb c d then "" else String d (before_chr c s')
  end.

Definition operator_name (w : string) : string :=
  if String.eqb w "%or%" then "|"
  else if String.eqb w "%oror%" then "||"
  else w.

Definition parse_word (w : string) : PatElem :=
  if String.eqb w "%var%" then PVar
  else if String.eqb w "%varid%" then PVarid
  else if String.eqb w "%num%" then PNum
  else if String.eqb w "%any%" then PAny
  else if String.eqb w "%or%" then PWord "|"
  else if String.eqb w "%oror%" then PWord "||"
  else match w with
       | String "[" rest =>
           if contains_chr "]" rest then PChars (before_chr "]" rest)
           else PWord w
       | _ =>
           if contains_chr "|" w && negb (String.eqb w "|") && negb (String.eqb w "||")
           then let alts := split_on "|" w in
                PMulti (map operator_name (filter nonempty alts))
                       (existsb (String.eqb "") alts)
           else PWord w
       end.

Definition parse_pattern (p : string) : list PatElem :=
  map parse_word (filter nonempty (split_on " " p)).

Definition elem_match (e : PatElem) (varid : nat) (t : Token) : bool :=
  match e with
  | PWord w => String.eqb (str t) w
  | PVar => isName t
  | PVarid => varId t =? varid
  | PNum => isNumber t
  | PAny => true
  | PChars cs =>
      match str t with
      | String c EmptyString => contains_chr c cs
      | _ => false
      end
  | PMulti alts _ => existsb (String.eqb (str t)) alts
  end.

Definition has_empty_alternative (e : PatElem) : bool :=
  match e with
  | PMulti _ true => true
  | _ => false
  end.

Fixpoint match_elems (toks : list Token) (c : cursor) (pat : list PatElem)
                     (varid : nat) : bool :=
  match pat with
  | [] => true
  | e :: pat' =>
      match c with
      | None => false
      | Some i =>
          match nth_error toks i with
          | None => false
          | Some t =>
              if elem_match e varid t
              then match_elems toks (next toks c) pat' varid
              else if has_empty_alternative e
                   then match_elems toks c pat' varid
                   else false
          end
      end
  end.

Module Token.

(** [Token::Match(tok, pattern, varid)].  The source only passes a
    [varid] to a [%varid%] pattern after checking that it is nonzero. *)
Definition Match (toks : list Token) (c : cursor) (pattern : string)
                 (varid : nat) : bool :=
  match_elems toks c (parse_pattern pattern) varid.

(** [Token::simpleMatch(tok, pattern)]: literal words only. *)
Fixpoint simpleMatch_words (toks : list Token) (c : cursor)
                           (ws : list string) : bool :=
  match ws with
  | [] => true
  | w :: ws' =>
      match c with
      | None => false
      | Some i =>
          match nth_error toks i with
          | None => false
          | Some t =>
              String.eqb (str t) w && simpleMatch_words toks (next toks c) ws'
          end
      end
  end.

Definition simpleMatch (toks : list Token) (c : cursor)
                       (pattern : string) : bool :=
  simpleMatch_words toks c (filter nonempty (split_on " " pattern)).

End Token.

(* ================================================================== *)
(** ** Collaborators of the check                                      *)
(* ================================================================== *)

(** Modelled from the spec: [Settings::isEnabled], the enablement flag
    that gates the whole diagnostic class. *)
Record Settings : Type := mkSettings { enabled : list string }.

Definition isEnabled (s : Settings) (id : string) : bool :=
  existsb (String.eqb id) (enabled s).

(** Modelled from the spec: a [Scope] of the symbol database, reduced to
    what the check reads: its type tag and the token that begins its
    controlling condition. *)
Inductive ScopeType : Type :=
| eGlobal | eClass | eStruct | eUnion | eNamespace | eFunction
| eIf | eElse | eElseIf | eFor | eWhile | eDo | eSwitch | eUnconditional.

Definition is_eIf (t : ScopeType) : bool :=
  match t with
  | eIf => true
  | _ => false
  end.

Record Scope : Type := mkScope {
  type     : ScopeType;
  classDef : cursor
}.

(** What the three [...Error] functions hand to [reportError]: the
    anchor token and the data the message is rendered from. *)
Inductive Finding : Type :=
| assignIfError (tok : cursor) (result : bool)
| comparisonError (tok : cursor) (bitop : string) (value1 : Z)
                  (op : string) (value2 : Z) (result : bool)
| multiConditionError (tok : cursor) (line1 : nat).

Definition anchor (f : Finding) : cursor :=
  match f with
  | assignIfError tok _ => tok
  | comparisonError tok _ _ _ _ _ => tok
  | multiConditionError tok _ => tok
  end.

(** [s.at(0)]; the source applies it to the text of a token that the
    character set [[&|]] has matched, which has exactly one character. *)
Definition at0 (s : string) : ascii :=
  match s with
  | String c _ => c
  | EmptyString => "000"%char
  end.

(** How the forward scan of [assignIf] ended: the cursor ran off the
    token list, a stop token was met (the [break] of line 56), or the
    comparison pattern matched (the [break] of line 64). *)
Inductive ScanOutcome : Type :=
| ScanEnd
| ScanStop (tok2 : nat)
| ScanMatch (tok2 : nat) (errs : list Finding).

Definition scan_errors (o : ScanOutcome) : list Finding :=
  match o with
  | ScanMatch _ errs => errs
  | _ => []
  end.

(** What one candidate position of [comparison] does. *)
Inductive CandidateOutcome : Type :=
| Skipped
| Reported (f : Finding)
| NullDeref.

(* ================================================================== *)
(** ** The three analyses                                              *)
(* ================================================================== *)

Section Analyses.

(** [MathLib::toLongNumber], defined outside the analysed sources: the
    decoder of a literal's text into a signed wide integer. *)
Variable toLongNumber : string -> Z.

Variable toks : list Token.

(** *** assignIf *)

Definition stop_token (s : string) : bool :=
  String.eqb s "(" || String.eqb s "}" || String.eqb s "=".

(** [(num & num2) != ((bitop=='&') ? num2 : num)] *)
Definition assign_mismatch (bitop : ascii) (num num2 : Z) : bool :=
  negb (Z.land num num2 =? (if Ascii.eqb bitop "&" then num2 else num))%Z.

(** Lines 58-63: the comparison that the pattern has matched at [tok2]
    is checked against the assigned mask. *)
Definition assignIf_compare (tok2 : cursor) (bitop : ascii) (num : Z)
  : list Finding :=
  let op := strAt toks tok2 3 in
  let num2 := toLongNumber (strAt toks tok2 4) in
  if String.eqb op "==" && assign_mismatch bitop num num2
  then [assignIfError tok2 false]
  else if String.eqb op "!=" && assign_mismatch bitop num num2
  then [assignIfError tok2 true]
  else [].

(** The inner loop [for (tok2 = tok->tokAt(4); tok2; tok2 = tok2->next())];
    [n] is the number of tokens from [tok2] to the end of the list. *)
Fixpoint assignIf_scan (n : nat) (tok2 : nat) (varid : nat)
                       (bitop : ascii) (num : Z) : ScanOutcome :=
  match n with
  | O => ScanEnd
  | S n' =>
      if stop_token (strOf toks (Some tok2)) then ScanStop tok2
      else if Token.Match toks (Some tok2)
                "if ( %varid% %any% %num% &&|%oror%|)" varid
      then ScanMatch tok2 (assignIf_compare (Some tok2) bitop num)
      else assignIf_scan n' (S tok2) varid bitop num
  end.

Definition assignIf_scan_from (c : cursor) (varid : nat)
                              (bitop : ascii) (num : Z) : ScanOutcome :=
  match c with
  | Some p => assignIf_scan (List.length toks - p) p varid bitop num
  | None => ScanEnd
  end.

(** The body of the outer loop at the token [tok]. *)
Definition assignIf_at (tok : nat) : list Finding :=
  if negb (String.eqb (strOf toks (Some tok)) "=") then []
  else if Token.Match toks (tokAt toks (Some tok) (-2))
            "[;{}] %var% = %var% [&|] %num% ;" 0
  then
    let varid := varIdOf toks (previous (Some tok)) in
    if varid =? 0 then []
    else
      let bitop := at0 (strAt toks (Some tok) 2) in
      let num := toLongNumber (strAt toks (Some tok) 3) in
      if (num <? 0)%Z then []
      else scan_errors
             (assignIf_scan_from (tokAt toks (Some tok) 4) varid bitop num)
  else [].

Definition assignIf (settings : Settings) : list Finding :=
  if negb (isEnabled settings "style") then []
  else flat_map assignIf_at (seq 0 (List.length toks)).

(** *** comparison *)

(** [(tok->str() == "&" && (num1 & num2) != num2) ||
     (tok->str() == "|" && (num1 | num2) != num2)] *)
Definition comparison_mismatch (bitop : string) (num1 num2 : Z) : bool :=
  (String.eqb bitop "&" && negb (Z.land num1 num2 =? num2)%Z)
  || (String.eqb bitop "|" && negb (Z.lor num1 num2 =? num2)%Z).

(** Lines 100-108, once [compareToken] is settled. *)
Definition comparison_check (tok compareToken : cursor) (num1 : Z)
  : CandidateOutcome :=
  let num2 := toLongNumber (strAt toks compareToken 1) in
  if (num2 <? 0)%Z then Skipped
  else if comparison_mismatch (strOf toks tok) num1 num2
  then
    let op := strOf toks compareToken in
    Reported (comparisonError tok (strOf toks tok) num1 op num2
                (if String.eqb op "==" then false else true))
  else Skipped.

(** The body of the loop at the token [tok]. *)
Definition comparison_at (tok : nat) : CandidateOutcome :=
  if Token.Match toks (Some tok)
       "&|%or% %num% )| ==|!= %num% &&|%oror%|)" 0
  then
    let num1 := toLongNumber (strAt toks (Some tok) 1) in
    if (num1 <? 0)%Z then Skipped
    else
      let compareToken := tokAt toks (Some tok) 2 in
      if String.eqb (strOf toks compareToken) ")"
      then
        match linkOf toks compareToken with
        | None => NullDeref
        | Some l =>
            if negb (Token.Match toks (previous (Some l)) "(|%oror%|&&" 0)
            then Skipped
            else comparison_check (Some tok) (next toks compareToken) num1
        end
      else comparison_check (Some tok) compareToken num1
  else Skipped.

(** The loop over the token list: the findings reported, and [false]
    when the run was cut short by a null dereference. *)
Fixpoint comparison_loop (positions : list nat) : list Finding * bool :=
  match positions with
  | [] => ([], true)
  | tok :: rest =>
      match comparison_at tok with
      | NullDeref => ([], false)
      | Skipped => comparison_loop rest
      | Reported f =>
          let (fs, ok) := comparison_loop rest in (f :: fs, ok)
      end
  end.

Definition comparison (settings : Settings) : list Finding * bool :=
  if negb (isEnabled settings "style") then ([], true)
  else comparison_loop (seq 0 (List.length toks)).

(** *** multiCondition *)

(** The [while] loop over the else-if chain.  The loop has no bound of
    its own, so the model counts iterations: the result is the findings
    reported and [true] when the loop ended within [fuel] iterations. *)
Fixpoint multiCondition_chain (fuel : nat) (tok : cursor) (varid : nat)
                              (num1 : Z) (tok2 : cursor)
  : list Finding * bool :=
  if Token.simpleMatch toks tok2 "} else { if (" then
    match fuel with
    | O => ([], false)
    | S fuel' =>
        let opar := tokAt toks tok2 4 in
        let tok2 := linkOf toks opar in
        let tok2 :=
          if Token.simpleMatch toks tok2 ") {"
          then linkOf toks (next toks tok2) else tok2 in
        let errs :=
          if Token.Match toks opar "( %varid% ==|& %num% &&|%oror%|)" varid
          then
            let num2 := toLongNumber (strAt toks opar 3) in
            if (num2 <? 0)%Z then []
            else if (Z.land num1 num2 =? num2)%Z
                 then [multiConditionError opar (linenrOf toks tok)]
                 else []
          else [] in
        let (rest, done) := multiCondition_chain fuel' tok varid num1 tok2 in
        (errs ++ rest, done)
    end
  else ([], true).

(** The body of the loop over the scope list. *)
Definition multiCondition_scope (fuel : nat) (i : Scope)
  : list Finding * bool :=
  if is_eIf (type i)
     && Token.Match toks (classDef i) "if ( %var% & %num% ) {" 0
  then
    let tok := classDef i in
    let varid := varIdOf toks (tokAt toks tok 2) in
    if varid =? 0 then ([], true)
    else
      let num1 := toLongNumber (strAt toks tok 4) in
      if (num1 <? 0)%Z then ([], true)
      else multiCondition_chain fuel tok varid num1 (linkAt toks tok 6)
  else ([], true).

Fixpoint multiCondition_scopes (fuel : nat) (scopes : list Scope)
  : list Finding * bool :=
  match scopes with
  | [] => ([], true)
  | i :: rest =>
      let (fs, done) := multiCondition_scope fuel i in
      if done
      then let (fs', done') := multiCondition_scopes fuel rest in
           (fs ++ fs', done')
      else (fs, false)
  end.

Definition multiCondition (fuel : nat) (settings : Settings)
                          (scopeList : list Scope) : list Finding * bool :=
  if negb (isEnabled settings "style") then ([], true)
  else multiCondition_scopes fuel scopeList.

End Analyses.

(* ================================================================== *)
(** ** A concrete literal decoder and token lists                      *)
(* ================================================================== *)

Definition digit_value (c : ascii) : option Z :=
  let n := nat_of_ascii c in
  if (48 <=? n) && (n <=? 57) then Some (Z.of_nat (n - 48))
  else if (97 <=? n) && (n <=? 102) then Some (Z.of_nat (n - 87))
  else if (65 <=? n) && (n <=? 70) then Some (Z.of_nat (n - 55))
  else None.

(** Reads the longest prefix of digits below [base], as a stream
    extraction does. *)
Fixpoint read_digits (base : Z) (s : string) (acc : Z) : Z :=
  match s with
  | EmptyString => acc
  | String c s' =>
      match digit_value c with
      | Some d => if (d <? base)%Z
                  then read_digits base s' (acc * base + d)%Z
                  else acc
      | None => acc
      end
  end.

Definition read_unsigned (s : string) : Z :=
  match s with
  | String "0" (String "x" s') => read_digits 16 s' 0
  | String "0" s' => read_digits 8 s' 0
  | _ => read_digits 10 s 0
  end.

(** Modelled from the spec: the numeric literal evaluator, which decodes
    the text of a literal (decimal, octal, hexadecimal, with an optional
    sign) into a signed integer. *)
Definition decodeLiteral (s : string) : Z :=
  match s with
  | String "-" s' => (- read_unsigned s')%Z
  | String "+" s' => read_unsigned s'
  | _ => read_unsigned s
  end.

Definition is_digit (c : ascii) : bool :=
  let n := nat_of_ascii c in (48 <=? n) && (n <=? 57).

Definition is_alpha (c : ascii) : bool :=
  let n := nat_of_ascii c in
  ((65 <=? n) && (n <=? 90)) || ((97 <=? n) && (n <=? 122)).

(** The lexical classes a token gets from its text: a name starts with a
    letter or an underscore, a number with a digit or with a minus sign
    and a digit. *)
Definition name_text (s : string) : bool :=
  match s with
  | String c _ => Ascii.eqb c "_" || is_alpha c
  | EmptyString => false
  end.

Definition number_text (s : string) : bool :=
  match s with
  | String c EmptyString => is_digit c
  | String c (String d _) => is_digit c || (Ascii.eqb c "-" && is_digit d)
  | EmptyString => false
  end.

Definition is_open (s : string) : bool :=
  String.eqb s "(" || String.eqb s "{" || String.eqb s "[".

Definition is_close (s : string) : bool :=
  String.eqb s ")" || String.eqb s "}" || String.eqb s "]".

(** Pairs every closing bracket with the nearest open bracket not yet
    closed, the way the tokenizer links brackets. *)
Fixpoint pair_brackets (ts : list (string * nat * nat)) (i : nat)
                       (stack : list nat) : list (nat * nat) :=
  match ts with
  | [] => []
  | (s, _, _) :: rest =>
      if is_open s then pair_brackets rest (S i) (i :: stack)
      else if is_close s then
        match stack with
        | o :: stack' => (o, i) :: (i, o) :: pair_brackets rest (S i) stack'
        | [] => pair_brackets rest (S i) []
        end
      else pair_brackets rest (S i) stack
  end.

Fixpoint lookup_link (i : nat) (ps : list (nat * nat)) : option nat :=
  match ps with
  | [] => None
  | (a, b) :: ps' => if a =? i then Some b else lookup_link i ps'
  end.

Fixpoint build_tokens (ts : list (string * nat * nat)) (i : nat)
                      (ps : list (nat * nat)) : list Token :=
  match ts with
  | [] => []
  | (s, v, l) :: rest =>
      mkToken s v l (name_text s) (number_text s) (lookup_link i ps)
      :: build_tokens rest (S i) ps
  end.

(** A token list from (text, variable identity, line) triples. *)
Definition tokenize (ts : list (string * nat * nat)) : list Token :=
  build_tokens ts 0 (pair_brackets ts 0 []).

Definition style : Settings := mkSettings ["style"].

(** [; x = y & 3 ; if ( x == 5 ) { }] *)
Definition ex_and_eq : list Token :=
  tokenize [(";",0,1); ("x",1,1); ("=",0,1); ("y",2,1); ("&",0,1); ("3",0,1);
            (";",0,1); ("if",0,2); ("(",0,2); ("x",1,2); ("==",0,2);
            ("5",0,2); (")",0,2); ("{",0,2); ("}",0,2)].

(** [; x = y & 3 ; if ( x != 5 ) { }] *)
Definition ex_and_ne : list Token :=
  tokenize [(";",0,1); ("x",1,1); ("=",0,1); ("y",2,1); ("&",0,1); ("3",0,1);
            (";",0,1); ("if",0,2); ("(",0,2); ("x",1,2); ("!=",0,2);
            ("5",0,2); (")",0,2); ("{",0,2); ("}",0,2)].

(** [; x = y | 3 ; if ( x == 4 ) { }] *)
Definition ex_or_eq : list Token :=
  tokenize [(";",0,1); ("x",1,1); ("=",0,1); ("y",2,1); ("|",0,1); ("3",0,1);
            (";",0,1); ("if",0,2); ("(",0,2); ("x",1,2); ("==",0,2);
            ("4",0,2); (")",0,2); ("{",0,2); ("}",0,2)].

(** [; x = y & 3 ; if ( x == -1 ) { }] *)
Definition ex_and_eq_negative : list Token :=
  tokenize [(";",0,1); ("x",1,1); ("=",0,1); ("y",2,1); ("&",0,1); ("3",0,1);
            (";",0,1); ("if",0,2); ("(",0,2); ("x",1,2); ("==",0,2);
            ("-1",0,2); (")",0,2); ("{",0,2); ("}",0,2)].

(** [; x = y & 3 ; if ( x < 9 ) { }] *)
Definition ex_and_lt : list Token :=
  tokenize [(";",0,1); ("x",1,1); ("=",0,1); ("y",2,1); ("&",0,1); ("3",0,1);
            (";",0,1); ("if",0,2); ("(",0,2); ("x",1,2); ("<",0,2);
            ("9",0,2); (")",0,2); ("{",0,2); ("}",0,2)].

(** [; x = y & 3 ; z = 1 ; if ( x == 5 ) { }] *)
Definition ex_reassigned : list Token :=
  tokenize [(";",0,1); ("x",1,1); ("=",0,1); ("y",2,1); ("&",0,1); ("3",0,1);
            (";",0,1); ("z",3,2); ("=",0,2); ("1",0,2); (";",0,2);
            ("if",0,3); ("(",0,3); ("x",1,3); ("==",0,3);
            ("5",0,3); (")",0,3); ("{",0,3); ("}",0,3)].

(** [if ( ( a & 0x10 ) == 0x11 ) { }] *)
Definition ex_inline : list Token :=
  tokenize [("if",0,1); ("(",0,1); ("(",0,1); ("a",1,1); ("&",0,1);
            ("0x10",0,1); (")",0,1); ("==",0,1); ("0x11",0,1); (")",0,1);
            ("{",0,1); ("}",0,1)].

(** [f ( a & 0x10 ) == 0x11 )]: the parenthesis closes a call. *)
Definition ex_inline_call : list Token :=
  tokenize [("(",0,1); ("f",0,1); ("(",0,1); ("a",1,1); ("&",0,1);
            ("0x10",0,1); (")",0,1); ("==",0,1); ("0x11",0,1); (")",0,1)].

(** [if ( x & 6 ) { } else { if ( x == 9 ) { } else { if ( x & 8 ) { }
    else { if ( x == 2 ) { } } } }], the way the tokenizer writes an
    else-if chain, on lines 1, 2, 3 and 4. *)
Definition ex_chain : list Token :=
  tokenize [("if",0,1); ("(",0,1); ("x",1,1); ("&",0,1); ("6",0,1); (")",0,1);
            ("{",0,1); ("}",0,1);
            ("else",0,2); ("{",0,2); ("if",0,2); ("(",0,2); ("x",1,2);
            ("==",0,2); ("9",0,2); (")",0,2); ("{",0,2); ("}",0,2);
            ("else",0,3); ("{",0,3); ("if",0,3); ("(",0,3); ("x",1,3);
            ("&",0,3); ("8",0,3); (")",0,3); ("{",0,3); ("}",0,3);
            ("else",0,4); ("{",0,4); ("if",0,4); ("(",0,4); ("x",1,4);
            ("==",0,4); ("2",0,4); (")",0,4); ("{",0,4); ("}",0,4);
            ("}",0,4); ("}",0,4); ("}",0,4)].

Definition ex_chain_scopes : list Scope :=
  [mkScope eGlobal None; mkScope eIf (Some 0); mkScope eElse (Some 8);
   mkScope eIf (Some 10); mkScope eElse (Some 18); mkScope eIf (Some 20);
   mkScope eElse (Some 28); mkScope eIf (Some 30)].

(** [} else { if ( ) {] with the brace linked backwards to the first
    token: a token list whose links are not well formed. *)
Definition ex_backward_link : list Token :=
  [mkToken "}" 0 1 false false (Some 6); mkToken "else" 0 1 true false None;
   mkToken "{" 0 1 false false None; mkToken "if" 0 1 true false None;
   mkToken "(" 0 1 false false (Some 5); mkToken ")" 0 1 false false (Some 4);
   mkToken "{" 0 1 false false (Some 0)].

(* ================================================================== *)
(** ** The statements of the specification                             *)
(* ================================================================== *)

Inductive Combinator : Type := AND | OR.

(** Section 4.2 in the specification's words: [a] is a subset mask of
    [b] when [(a & b) == a]. *)
Definition isSubsetMask (a b : Z) : bool := (Z.land a b =? a)%Z.

(** Section 4.2 in the specification's words: after [x = x2 AND m]
    equality with [t] needs [(m & t) == t], after [x = x2 OR m] it needs
    [(m & t) == m]; equality is impossible when that fails. *)
Definition equality_impossible (c : Combinator) (m t : Z) : bool :=
  match c with
  | AND => negb (Z.land m t =? t)%Z
  | OR => negb (Z.land m t =? m)%Z
  end.

Section SpecScan.

Variable toLongNumber : string -> Z.
Variable toks : list Token.

(** The forward scan in the specification's words (section 4.3): a
    comparison qualifies only when its operator is [==] or [!=]; any
    other token that is not a stop token is passed over. *)
Fixpoint spec_scan (n : nat) (tok2 : nat) (varid : nat)
                   (bitop : ascii) (num : Z) : ScanOutcome :=
  match n with
  | O => ScanEnd
  | S n' =>
      if stop_token (strOf toks (Some tok2)) then ScanStop tok2
      else if Token.Match toks (Some tok2)
                "if ( %varid% ==|!= %num% &&|%oror%|)" varid
      then ScanMatch tok2
             (assignIf_compare toLongNumber toks (Some tok2) bitop num)
      else spec_scan n' (S tok2) varid bitop num
  end.

Definition spec_scan_from (c : cursor) (varid : nat)
                          (bitop : ascii) (num : Z) : ScanOutcome :=
  match c with
  | Some p => spec_scan (List.length toks - p) p varid bitop num
  | None => ScanEnd
  end.

(** The open parentheses of the else-if links that the chain walk of
    [multiCondition] visits from [tok2] on, in the order of the walk. *)
Fixpoint chain_links (fuel : nat) (tok2 : cursor) : list cursor :=
  if Token.simpleMatch toks tok2 "} else { if (" then
    match fuel with
    | O => []
    | S fuel' =>
        let opar := tokAt toks tok2 4 in
        let tok2 := linkOf toks opar in
        let tok2 :=
          if Token.simpleMatch toks tok2 ") {"
          then linkOf toks (next toks tok2) else tok2 in
        opar :: chain_links fuel' tok2
    end
  else [].

(** A link qualifies when its condition reads [( var CMP2 mask2 <end>]
    on the variable [varid], with [CMP2] one of [==] and [&] and
    [<end>] one of [&&], [||] and [)], and [mask2] is non-negative. *)
Definition link_qualifies (varid : nat) (opar : cursor) : bool :=
  match opar with
  | Some i =>
      String.eqb (strOf toks (Some i)) "("
      && match nth_error toks (i + 1) with
         | Some t => varId t =? varid
         | None => false
         end
      && existsb (String.eqb (strOf toks (Some (i + 2)))) ["=="; "&"]
      && match nth_error toks (i + 3) with
         | Some t => isNumber t
         | None => false
         end
      && existsb (String.eqb (strOf toks (Some (i + 4)))) ["&&"; "||"; ")"]
      && Z.leb 0 (toLongNumber (strOf toks (Some (i + 3))))
  | None => false
  end.

(** What the specification expects of one link (section 4.5). *)
Definition link_findings (tok : cursor) (varid : nat) (num1 : Z)
                         (opar : cursor) : list Finding :=
  if link_qualifies varid opar
     && isSubsetMask (toLongNumber (strAt toks opar 3)) num1
  then [multiConditionError opar (linenrOf toks tok)]
  else [].

End SpecScan.

(** Well-formed bracket links: an open bracket is linked to a later
    token that closes it and is linked back; a closing bracket is linked
    to an earlier token that is linked back. *)
Definition closer_of (s : string) : string :=
  if String.eqb s "(" then ")"
  else if String.eqb s "{" then "}"
  else if String.eqb s "[" then "]"
  else "".

Definition links_back (toks : list Token) (j i : nat) : bool :=
  match linkOf toks (Some j) with
  | Some k => k =? i
  | None => false
  end.

Definition link_well_formed (toks : list Token) (i : nat) : bool :=
  match nth_error toks i with
  | Some t =>
      match link t with
      | None => true
      | Some j =>
          if is_open (str t)
          then (i <? j) && String.eqb (strOf toks (Some j)) (closer_of (str t))
               && links_back toks j i
          else is_close (str t) && (j <? i) && links_back toks j i
      end
  | None => true
  end.

Definition well_formed_links (toks : list Token) : bool :=
  forallb (link_well_formed toks) (seq 0 (List.length toks)).

(* ================================================================== *)
(** ** Further token lists and preconditions                           *)
(* ================================================================== *)

(** [; x = y & 3 ; if ( x == 5 ) { } z = y | 3 ; if ( z == 4 ) { }] *)
Definition ex_two_assignments : list Token :=
  tokenize [(";",0,1); ("x",1,1); ("=",0,1); ("y",2,1); ("&",0,1); ("3",0,1);
            (";",0,1); ("if",0,2); ("(",0,2); ("x",1,2); ("==",0,2);
            ("5",0,2); (")",0,2); ("{",0,2); ("}",0,2);
            ("z",3,3); ("=",0,3); ("y",2,3); ("|",0,3); ("3",0,3);
            (";",0,3); ("if",0,4); ("(",0,4); ("z",3,4); ("==",0,4);
            ("4",0,4); (")",0,4); ("{",0,4); ("}",0,4)].

(** [if ( x & 6 ) { } else { if ( x == 0 ) { } }] *)
Definition ex_chain_zero : list Token :=
  tokenize [("if",0,1); ("(",0,1); ("x",1,1); ("&",0,1); ("6",0,1); (")",0,1);
            ("{",0,1); ("}",0,1);
            ("else",0,2); ("{",0,2); ("if",0,2); ("(",0,2); ("x",1,2);
            ("==",0,2); ("0",0,2); (")",0,2); ("{",0,2); ("}",0,2);
            ("}",0,2)].

(** [a & 1 ) == 2 )] with a closing parenthesis that has no link. *)
Definition ex_unlinked_paren : list Token :=
  [mkToken "a" 1 1 true false None; mkToken "&" 0 1 false false None;
   mkToken "1" 0 1 false true None; mkToken ")" 0 1 false false None;
   mkToken "==" 0 1 false false None; mkToken "2" 0 1 false true None;
   mkToken ")" 0 1 false false None].

(** [} else { if ( x == 2 )] with an open parenthesis that has no
    link. *)
Definition ex_missing_link : list Token :=
  [mkToken "}" 0 1 false false None; mkToken "else" 0 2 true false None;
   mkToken "{" 0 2 false false None; mkToken "if" 0 2 true false None;
   mkToken "(" 0 2 false false None; mkToken "x" 1 2 true false None;
   mkToken "==" 0 2 false false None; mkToken "2" 0 2 false true None;
   mkToken ")" 0 2 false false None].

(** No token spelled [=] is classed as a name or as a number, as the
    lexical classes of a token follow from its text. *)
Definition assignments_lexed (toks : list Token) : bool :=
  forallb (fun t => negb (String.eqb (str t) "=")
                    || (negb (isName t) && negb (isNumber t))) toks.

(** Every closing parenthesis has a link. *)
Definition closing_parens_linked (toks : list Token) : bool :=
  forallb (fun t => negb (String.eqb (str t) ")")
                    || match link t with
                       | Some _ => true
                       | None => false
                       end) toks.

(* ================================================================== *)
(** ** Properties of the token accessors and of the matcher            *)
(* ================================================================== *)

Section MatcherFacts.

Variable toks : list Token.

Lemma tokAt_forward (p k : nat) :
  p + k < List.length toks ->
  tokAt toks (Some p) (Z.of_nat k) = Some (p + k).
Proof.
  intros Hlt. unfold tokAt.
  replace ((0 <=? Z.of_nat p + Z.of_nat k)%Z) with true
    by (symmetry; apply Z.leb_le; lia).
  replace ((Z.of_nat p + Z.of_nat k <? Z.of_nat (List.length toks))%Z)
    with true by (symmetry; apply Z.ltb_lt; lia).
  simpl. f_equal. lia.
Qed.

Lemma tokAt_in_range (c : cursor) (n : Z) (j : nat) :
  tokAt toks c n = Some j -> j < List.length toks.
Proof.
  unfold tokAt. destruct c as [i|]; [|discriminate].
  destruct ((0 <=? Z.of_nat i + n)%Z) eqn:E1; simpl; [|discriminate].
  destruct ((Z.of_nat i + n <? Z.of_nat (List.length toks))%Z) eqn:E2;
    [|discriminate].
  intros H; inversion H; subst.
  apply Z.leb_le in E1. apply Z.ltb_lt in E2. lia.
Qed.

Lemma strOf_token (i : nat) (t : Token) :
  nth_error toks i = Some t -> strOf toks (Some i) = str t.
Proof. intros H. unfold strOf, tokenAt. now rewrite H. Qed.

Lemma strAt_forward (p k : nat) (t : Token) :
  nth_error toks (p + k) = Some t ->
  strAt toks (Some p) (Z.of_nat k) = str t.
Proof.
  intros H. unfold strAt.
  rewrite tokAt_forward by (apply nth_error_Some; congruence).
  now apply strOf_token.
Qed.

Lemma strOf_nonempty_in_range (i : nat) :
  strOf toks (Some i) <> "" -> i < List.length toks.
Proof.
  unfold strOf; simpl. intros H. apply nth_error_Some.
  destruct (nth_error toks i); congruence.
Qed.

Lemma next_in_range (i : nat) :
  S i < List.length toks -> next toks (Some i) = Some (S i).
Proof.
  intros H. unfold next.
  now replace (S i <? List.length toks) with true
    by (symmetry; apply Nat.ltb_lt; exact H).
Qed.

Lemma next_cases (i : nat) :
  next toks (Some i) = Some (S i) /\ S i < List.length toks
  \/ next toks (Some i) = None.
Proof.
  unfold next. destruct (S i <? List.length toks) eqn:E; [left|right]; auto.
  split; auto. now apply Nat.ltb_lt.
Qed.

(** A pattern that still has a word to match needs a token. *)
Lemma match_elems_token (c : cursor) (e : PatElem) (pat : list PatElem)
      (v : nat) :
  match_elems toks c (e :: pat) v = true ->
  exists i t, c = Some i /\ nth_error toks i = Some t.
Proof.
  simpl. destruct c as [i|]; [|discriminate].
  destruct (nth_error toks i) as [t|] eqn:E; [|discriminate].
  intros _. now exists i, t.
Qed.

(** One step of the matcher on a word without an empty alternative. *)
Lemma match_elems_step (i : nat) (e : PatElem) (pat : list PatElem)
      (v : nat) :
  has_empty_alternative e = false ->
  match_elems toks (Some i) (e :: pat) v = true ->
  exists t, nth_error toks i = Some t /\ elem_match e v t = true
            /\ match_elems toks (next toks (Some i)) pat v = true.
Proof.
  intros He. simpl.
  destruct (nth_error toks i) as [t|] eqn:E; [|discriminate].
  rewrite He. destruct (elem_match e v t) eqn:Em; [|discriminate].
  intros H. exists t. split; [reflexivity|]. split; [exact Em|exact H].
Qed.

Lemma match_elems_next (i : nat) (e : PatElem) (pat : list PatElem)
      (v : nat) :
  match_elems toks (next toks (Some i)) (e :: pat) v = true ->
  next toks (Some i) = Some (S i).
Proof.
  intros H. destruct (next_cases i) as [[Hn _]|Hn]; [exact Hn|].
  rewrite Hn in H. discriminate.
Qed.

Lemma simpleMatch_words_step (c : cursor) (w : string) (ws : list string) :
  Token.simpleMatch_words toks c (w :: ws) = true ->
  exists i t, c = Some i /\ nth_error toks i = Some t /\ str t = w
              /\ Token.simpleMatch_words toks (next toks c) ws = true.
Proof.
  simpl. destruct c as [i|]; [|discriminate].
  destruct (nth_error toks i) as [t|] eqn:E; [|discriminate].
  intros H. apply andb_true_iff in H as [H1 H2].
  apply String.eqb_eq in H1. now exists i, t.
Qed.

Lemma simpleMatch_words_next (i : nat) (w : string) (ws : list string) :
  Token.simpleMatch_words toks (next toks (Some i)) (w :: ws) = true ->
  next toks (Some i) = Some (S i).
Proof.
  intros H. destruct (next_cases i) as [[Hn _]|Hn]; [exact Hn|].
  rewrite Hn in H. discriminate.
Qed.

End MatcherFacts.

Lemma pattern_assignment :
  parse_pattern "[;{}] %var% = %var% [&|] %num% ;"
  = [PChars ";{}"; PVar; PWord "="; PVar; PChars "&|"; PNum; PWord ";"].
Proof. reflexivity. Qed.

Lemma pattern_if_comparison :
  parse_pattern "if ( %varid% %any% %num% &&|%oror%|)"
  = [PWord "if"; PWord "("; PVarid; PAny; PNum;
     PMulti ["&&"; "||"; ")"] false].
Proof. reflexivity. Qed.

Lemma pattern_inline :
  parse_pattern "&|%or% %num% )| ==|!= %num% &&|%oror%|)"
  = [PMulti ["&"; "|"] false; PNum; PMulti [")"] true;
     PMulti ["=="; "!="] false; PNum; PMulti ["&&"; "||"; ")"] false].
Proof. reflexivity. Qed.

Lemma pattern_before_open :
  parse_pattern "(|%oror%|&&" = [PMulti ["("; "||"; "&&"] false].
Proof. reflexivity. Qed.

Lemma pattern_first_if :
  parse_pattern "if ( %var% & %num% ) {"
  = [PWord "if"; PWord "("; PVar; PWord "&"; PNum; PWord ")"; PWord "{"].
Proof. reflexivity. Qed.

Lemma pattern_link_condition :
  parse_pattern "( %varid% ==|& %num% &&|%oror%|)"
  = [PWord "("; PVarid; PMulti ["=="; "&"] false; PNum;
     PMulti ["&&"; "||"; ")"] false].
Proof. reflexivity. Qed.

Lemma words_else_if :
  filter nonempty (split_on " " "} else { if (")
  = ["}"; "else"; "{"; "if"; "("].
Proof. reflexivity. Qed.

Lemma words_close_open :
  filter nonempty (split_on " " ") {") = [")"; "{"].
Proof. reflexivity. Qed.

Section PatternFacts.

Variable toks : list Token.

Ltac match_step H t :=
  let Ht := fresh "H" t in
  let Hm := fresh "M" t in
  apply match_elems_step in H; [|reflexivity];
  destruct H as (t & Ht & Hm & H);
  try (rewrite (match_elems_next _ _ _ _ _ H) in H).

(** What a match of the comparison pattern of [assignIf] says about the
    tokens at and after [p]. *)
Lemma Match_if_comparison (p v : nat) :
  Token.Match toks (Some p) "if ( %varid% %any% %num% &&|%oror%|)" v = true ->
  strOf toks (Some p) = "if" /\ strOf toks (Some (S p)) = "("
  /\ varIdOf toks (Some (S (S p))) = v /\ p + 5 < List.length toks.
Proof.
  unfold Token.Match. rewrite pattern_if_comparison. intros H.
  match_step H t0. match_step H t1. match_step H t2. match_step H t3.
  match_step H t4. match_step H t5.
  simpl in Mt0, Mt1, Mt2.
  apply String.eqb_eq in Mt0, Mt1. apply Nat.eqb_eq in Mt2.
  repeat split.
  - now rewrite (strOf_token _ _ _ Ht0).
  - now rewrite (strOf_token _ _ _ Ht1).
  - unfold varIdOf, tokenAt. now rewrite Ht2.
  - assert (S (S (S (S (S p)))) < List.length toks)
      by (apply nth_error_Some; congruence). lia.
Qed.

Lemma Match_inline (p : nat) :
  Token.Match toks (Some p) "&|%or% %num% )| ==|!= %num% &&|%oror%|)" 0
  = true -> p < List.length toks.
Proof.
  unfold Token.Match. rewrite pattern_inline. intros H.
  apply match_elems_token in H as (i & t & Hi & Ht).
  inversion Hi; subst. apply nth_error_Some. congruence.
Qed.

(** The one-word pattern that validates the token before an open
    bracket. *)
Lemma Match_before_open (c : cursor) :
  Token.Match toks c "(|%oror%|&&" 0 = true
  <-> In (strOf toks c) ["("; "||"; "&&"].
Proof.
  unfold Token.Match. rewrite pattern_before_open. unfold strOf.
  destruct c as [i|]; simpl.
  - destruct (nth_error toks i) as [t|]; simpl.
    + destruct (String.eqb_spec (str t) "(") as [->|N1]; simpl; [tauto|].
      destruct (String.eqb_spec (str t) "||") as [->|N2]; simpl; [tauto|].
      destruct (String.eqb_spec (str t) "&&") as [->|N3]; simpl; [tauto|].
      split; [discriminate|]. intros [E|[E|[E|[]]]]; congruence.
    + split; [discriminate|]. intros [E|[E|[E|[]]]]; discriminate.
  - split; [discriminate|]. intros [E|[E|[E|[]]]]; discriminate.
Qed.

Lemma Match_link_condition (c : cursor) (v : nat) :
  Token.Match toks c "( %varid% ==|& %num% &&|%oror%|)" v = true ->
  exists i, c = Some i /\ i < List.length toks.
Proof.
  unfold Token.Match. rewrite pattern_link_condition. intros H.
  apply match_elems_token in H as (i & t & Hi & Ht).
  exists i. split; [exact Hi|]. apply nth_error_Some. congruence.
Qed.

Ltac simple_step H t :=
  let Ht := fresh "H" t in
  let Hs := fresh "S" t in
  let i := fresh "i" in
  let Hi := fresh "Hi" in
  apply simpleMatch_words_step in H;
  destruct H as (i & t & Hi & Ht & Hs & H);
  inversion Hi; subst i; clear Hi;
  try (rewrite (simpleMatch_words_next _ _ _ _ H) in H).

(** [} else { if (] at [i]: the open parenthesis is the token [i + 4]. *)
Lemma simpleMatch_else_if (c : cursor) :
  Token.simpleMatch toks c "} else { if (" = true ->
  exists i t, c = Some i /\ tokAt toks c 4 = Some (i + 4)
              /\ nth_error toks (i + 4) = Some t /\ str t = "(".
Proof.
  unfold Token.simpleMatch. rewrite words_else_if. intros H.
  destruct c as [i|]; [|discriminate].
  simple_step H t0. simple_step H t1. simple_step H t2.
  simple_step H t3. simple_step H t4.
  replace (S (S (S (S i)))) with (i + 4) in Ht4 by lia.
  exists i, t4. split; [reflexivity|]. split; [|split; assumption].
  change 4%Z with (Z.of_nat 4). apply tokAt_forward.
  apply nth_error_Some. congruence.
Qed.

(** [) {] at [j]: the open brace is the token [j + 1]. *)
Lemma simpleMatch_close_open (c : cursor) :
  Token.simpleMatch toks c ") {" = true ->
  exists j t, c = Some j /\ next toks c = Some (S j)
              /\ nth_error toks (S j) = Some t /\ str t = "{".
Proof.
  unfold Token.simpleMatch. rewrite words_close_open. intros H.
  destruct c as [j|]; [|discriminate].
  apply simpleMatch_words_step in H.
  destruct H as (i & t0 & Hi & Ht0 & Hs0 & H).
  inversion Hi; subst i; clear Hi.
  pose proof (simpleMatch_words_next _ _ _ _ H) as Hn. rewrite Hn in H.
  simple_step H t1.
  exists j, t1. repeat split; assumption.
Qed.

End PatternFacts.

Section ComparisonShape.

Variable toks : list Token.

Lemma match_elems_cons_true (i : nat) (t : Token) (e : PatElem)
      (pat : list PatElem) (v : nat) :
  nth_error toks i = Some t -> elem_match e v t = true ->
  match_elems toks (Some i) (e :: pat) v
  = match_elems toks (next toks (Some i)) pat v.
Proof.
  intros Ht He. cbn [match_elems]. now rewrite Ht, He.
Qed.

(** The comparison pattern, with any word [e] for the operator, read
    off the six tokens from [p] on. *)
Lemma match_elems_if_shape (e : PatElem) (p v : nat) :
  has_empty_alternative e = false ->
  match_elems toks (Some p)
    [PWord "if"; PWord "("; PVarid; e; PNum; PMulti ["&&"; "||"; ")"] false]
    v = true
  <-> exists t0 t1 t2 t3 t4 t5,
       nth_error toks p = Some t0 /\ nth_error toks (p + 1) = Some t1
       /\ nth_error toks (p + 2) = Some t2 /\ nth_error toks (p + 3) = Some t3
       /\ nth_error toks (p + 4) = Some t4 /\ nth_error toks (p + 5) = Some t5
       /\ str t0 = "if" /\ str t1 = "(" /\ varId t2 = v
       /\ elem_match e v t3 = true /\ isNumber t4 = true
       /\ existsb (String.eqb (str t5)) ["&&"; "||"; ")"] = true.
Proof.
  intros He. split.
  - intros H.
    apply match_elems_step in H; [|reflexivity].
    destruct H as (t0 & H0 & M0 & H).
    rewrite (match_elems_next _ _ _ _ _ H) in H.
    apply match_elems_step in H; [|reflexivity].
    destruct H as (t1 & H1 & M1 & H).
    rewrite (match_elems_next _ _ _ _ _ H) in H.
    apply match_elems_step in H; [|reflexivity].
    destruct H as (t2 & H2 & M2 & H).
    rewrite (match_elems_next _ _ _ _ _ H) in H.
    apply match_elems_step in H; [|exact He].
    destruct H as (t3 & H3 & M3 & H).
    rewrite (match_elems_next _ _ _ _ _ H) in H.
    apply match_elems_step in H; [|reflexivity].
    destruct H as (t4 & H4 & M4 & H).
    rewrite (match_elems_next _ _ _ _ _ H) in H.
    apply match_elems_step in H; [|reflexivity].
    destruct H as (t5 & H5 & M5 & _).
    exists t0, t1, t2, t3, t4, t5.
    replace (p + 1) with (S p) by lia.
    replace (p + 2) with (S (S p)) by lia.
    replace (p + 3) with (S (S (S p))) by lia.
    replace (p + 4) with (S (S (S (S p)))) by lia.
    replace (p + 5) with (S (S (S (S (S p))))) by lia.
    simpl in M0, M1, M2, M4.
    apply String.eqb_eq in M0, M1. apply Nat.eqb_eq in M2.
    repeat (split; [assumption|]). exact M5.
  - intros (t0 & t1 & t2 & t3 & t4 & t5 & H0 & H1 & H2 & H3 & H4 & H5
            & S0 & S1 & V2 & M3 & N4 & M5).
    assert (L5 : p + 5 < List.length toks)
      by (apply nth_error_Some; congruence).
    replace (p + 1) with (S p) in H1 by lia.
    replace (p + 2) with (S (S p)) in H2 by lia.
    replace (p + 3) with (S (S (S p))) in H3 by lia.
    replace (p + 4) with (S (S (S (S p)))) in H4 by lia.
    replace (p + 5) with (S (S (S (S (S p))))) in H5 by lia.
    rewrite (match_elems_cons_true _ _ _ _ _ H0)
      by (simpl; rewrite S0; reflexivity).
    rewrite next_in_range by lia.
    rewrite (match_elems_cons_true _ _ _ _ _ H1)
      by (simpl; rewrite S1; reflexivity).
    rewrite next_in_range by lia.
    rewrite (match_elems_cons_true _ _ _ _ _ H2)
      by (simpl; rewrite V2; apply Nat.eqb_refl).
    rewrite next_in_range by lia.
    rewrite (match_elems_cons_true _ _ _ _ _ H3) by exact M3.
    rewrite next_in_range by lia.
    rewrite (match_elems_cons_true _ _ _ _ _ H4) by exact N4.
    rewrite next_in_range by lia.
    rewrite (match_elems_cons_true _ _ _ _ _ H5) by exact M5.
    reflexivity.
Qed.

Lemma pattern_if_equality :
  parse_pattern "if ( %varid% ==|!= %num% &&|%oror%|)"
  = [PWord "if"; PWord "("; PVarid; PMulti ["=="; "!="] false; PNum;
     PMulti ["&&"; "||"; ")"] false].
Proof. reflexivity. Qed.

(** The pattern of the specification is the pattern of the source
    restricted to the operators [==] and [!=]. *)
Lemma Match_if_equality_iff (p v : nat) :
  Token.Match toks (Some p) "if ( %varid% ==|!= %num% &&|%oror%|)" v = true
  <-> Token.Match toks (Some p) "if ( %varid% %any% %num% &&|%oror%|)" v
      = true
      /\ (strAt toks (Some p) 3 = "==" \/ strAt toks (Some p) 3 = "!=").
Proof.
  unfold Token.Match.
  rewrite pattern_if_equality, pattern_if_comparison.
  rewrite !match_elems_if_shape by reflexivity.
  split.
  - intros (t0 & t1 & t2 & t3 & t4 & t5 & H0 & H1 & H2 & H3 & H4 & H5
            & S0 & S1 & V2 & M3 & N4 & M5).
    split.
    + exists t0, t1, t2, t3, t4, t5. repeat (split; [assumption|]).
      split; [reflexivity|]. split; assumption.
    + change 3%Z with (Z.of_nat 3). rewrite (strAt_forward _ _ _ _ H3).
      simpl in M3.
      destruct (String.eqb_spec (str t3) "=="); [now left|].
      destruct (String.eqb_spec (str t3) "!="); [now right|].
      discriminate.
  - intros [(t0 & t1 & t2 & t3 & t4 & t5 & H0 & H1 & H2 & H3 & H4 & H5
             & S0 & S1 & V2 & M3 & N4 & M5) Hop].
    change 3%Z with (Z.of_nat 3) in Hop.
    rewrite (strAt_forward _ _ _ _ H3) in Hop.
    exists t0, t1, t2, t3, t4, t5. repeat (split; [assumption|]).
    split; [|split; assumption].
    simpl. destruct Hop as [-> | ->]; reflexivity.
Qed.

End ComparisonShape.

(* ================================================================== *)
(** ** The direct-assignment analysis                                  *)
(* ================================================================== *)

Section AssignIfFacts.

Variable toLongNumber : string -> Z.
Variable toks : list Token.

Lemma stop_token_in_range (s : nat) :
  stop_token (strOf toks (Some s)) = true -> s < List.length toks.
Proof.
  intros H. apply strOf_nonempty_in_range. intros E. rewrite E in H.
  discriminate.
Qed.

Lemma assignIf_compare_anchor (c : cursor) (bitop : ascii) (num : Z)
      (f : Finding) :
  In f (assignIf_compare toLongNumber toks c bitop num) -> anchor f = c.
Proof.
  unfold assignIf_compare.
  repeat match goal with
         | |- context [if ?b then _ else _] => destruct b
         end; simpl; intros H; try contradiction;
    destruct H as [<-|[]]; reflexivity.
Qed.

(** A comparison whose operator is neither [==] nor [!=] is matched
    but yields no finding. *)
Lemma assignIf_compare_other_operator (c : cursor) (bitop : ascii)
      (num : Z) :
  strAt toks c 3 <> "==" -> strAt toks c 3 <> "!=" ->
  assignIf_compare toLongNumber toks c bitop num = [].
Proof.
  intros N1 N2. unfold assignIf_compare.
  destruct (String.eqb_spec (strAt toks c 3) "=="); [contradiction|].
  destruct (String.eqb_spec (strAt toks c 3) "!="); [contradiction|].
  reflexivity.
Qed.

(** Before the first stop token the comparison pattern matches nowhere
    but, possibly, right in front of it: a match has an open
    parenthesis as its second token. *)
Lemma no_match_before (q p v : nat) :
  (forall r, q <= r < p -> stop_token (strOf toks (Some r)) = false) ->
  strOf toks (Some p) <> "(" ->
  forall r, q <= r < p ->
    Token.Match toks (Some r) "if ( %varid% %any% %num% &&|%oror%|)" v
    = false.
Proof.
  intros Hstop Hp r Hr.
  destruct (Token.Match toks (Some r) _ v) eqn:E; [|reflexivity].
  apply Match_if_comparison in E as (_ & Hopen & _ & _).
  destruct (Nat.eq_dec (S r) p) as [<-|Hne]; [contradiction|].
  specialize (Hstop (S r) ltac:(lia)). rewrite Hopen in Hstop.
  discriminate.
Qed.

(** The scan passes over tokens that neither stop it nor match. *)
Lemma assignIf_scan_skip (k : nat) :
  forall n q v bitop num,
    (forall r, q <= r < q + k ->
       stop_token (strOf toks (Some r)) = false
       /\ Token.Match toks (Some r)
            "if ( %varid% %any% %num% &&|%oror%|)" v = false) ->
    assignIf_scan toLongNumber toks (k + n) q v bitop num
    = assignIf_scan toLongNumber toks n (q + k) v bitop num.
Proof.
  induction k as [|k IH]; intros n q v bitop num H.
  - now replace (q + 0) with q by lia.
  - destruct (H q ltac:(lia)) as [Hs Hm].
    cbn [Nat.add assignIf_scan]. rewrite Hs, Hm.
    rewrite IH by (intros r Hr; apply H; lia).
    f_equal. lia.
Qed.

(** The scan halts at the first token, before any stop token, where
    the comparison pattern matches. *)
Lemma assignIf_scan_reaches (q p v : nat) (bitop : ascii) (num : Z) :
  q <= p ->
  (forall r, q <= r < p -> stop_token (strOf toks (Some r)) = false) ->
  Token.Match toks (Some p) "if ( %varid% %any% %num% &&|%oror%|)" v
  = true ->
  assignIf_scan_from toLongNumber toks (Some q) v bitop num
  = ScanMatch p (assignIf_compare toLongNumber toks (Some p) bitop num).
Proof.
  intros Hqp Hstop Hm.
  pose proof (Match_if_comparison _ _ _ Hm) as (Hif & _ & _ & Hlen).
  unfold assignIf_scan_from.
  replace (List.length toks - q)
    with ((p - q) + S (List.length toks - S p)) by lia.
  rewrite assignIf_scan_skip.
  - replace (q + (p - q)) with p by lia.
    cbn [assignIf_scan]. rewrite Hif, Hm. reflexivity.
  - intros r Hr. split; [apply Hstop; lia|].
    apply (no_match_before q p); [exact Hstop| |lia].
    rewrite Hif. discriminate.
Qed.

(** No finding of a scan is anchored at or after a stop token. *)
Lemma assignIf_scan_bound (n : nat) :
  forall q s v bitop num f,
    q <= s -> stop_token (strOf toks (Some s)) = true ->
    In f (scan_errors (assignIf_scan toLongNumber toks n q v bitop num)) ->
    exists r, anchor f = Some r /\ q <= r < s.
Proof.
  induction n as [|n IH]; intros q s v bitop num f Hqs Hs Hin.
  - destruct Hin.
  - cbn [assignIf_scan] in Hin.
    destruct (stop_token (strOf toks (Some q))) eqn:Eq; [destruct Hin|].
    assert (q <> s) by (intros ->; congruence).
    destruct (Token.Match toks (Some q) _ v).
    + apply assignIf_compare_anchor in Hin. exists q. split; [exact Hin|lia].
    + apply IH with (s := s) in Hin; [|lia|exact Hs].
      destruct Hin as (r & Hr & Hb). exists r. split; [exact Hr|lia].
Qed.

(** The findings of an assignment come from its forward scan. *)
Lemma assignIf_at_cases (tok : nat) :
  assignIf_at toLongNumber toks tok = []
  \/ exists v bitop num,
       assignIf_at toLongNumber toks tok
       = scan_errors (assignIf_scan_from toLongNumber toks
                        (Some (tok + 4)) v bitop num).
Proof.
  unfold assignIf_at.
  destruct (negb _); [now left|].
  destruct (Token.Match toks (tokAt toks (Some tok) (-2)) _ 0); [|now left].
  destruct (varIdOf toks (previous (Some tok)) =? 0); [now left|].
  destruct (_ <? 0)%Z; [now left|].
  destruct (tokAt toks (Some tok) 4) as [j|] eqn:E; [|now left].
  right. do 3 eexists.
  replace (tok + 4) with j; [reflexivity|].
  unfold tokAt in E.
  destruct (_ && _)%bool; [|discriminate]. inversion E. lia.
Qed.

End AssignIfFacts.

(** C1. Direct-assignment analysis, AND combinator: for a statement
    [var = var2 & m ;] whose variable has a nonzero identity and whose
    mask [m] is non-negative, when the first comparison
    [if ( var CMP t <end>] is reached before any stop token, the
    analysis reports "always false" for [==] and "always true" for [!=]
    exactly when [(m & t) != t], anchored at the comparison, and nothing
    when [(m & t) == t]. *)
Theorem assignIf_and_rule (toLongNumber : string -> Z) (toks : list Token)
        (tok p : nat) :
  let varid := varIdOf toks (previous (Some tok)) in
  let m := toLongNumber (strAt toks (Some tok) 3) in
  let t := toLongNumber (strAt toks (Some p) 4) in
  strOf toks (Some tok) = "=" ->
  Token.Match toks (tokAt toks (Some tok) (-2))
    "[;{}] %var% = %var% [&|] %num% ;" 0 = true ->
  varid <> 0 ->
  strAt toks (Some tok) 2 = "&" ->
  (0 <= m)%Z ->
  tok + 4 <= p ->
  (forall r, tok + 4 <= r < p -> stop_token (strOf toks (Some r)) = false) ->
  Token.Match toks (Some p) "if ( %varid% %any% %num% &&|%oror%|)" varid
  = true ->
  (strAt toks (Some p) 3 = "==" ->
   assignIf_at toLongNumber toks tok
   = if negb (Z.land m t =? t)%Z then [assignIfError (Some p) false] else [])
  /\ (strAt toks (Some p) 3 = "!=" ->
      assignIf_at toLongNumber toks tok
      = if negb (Z.land m t =? t)%Z then [assignIfError (Some p) true] else []).
Proof.
  intros varid m t Heq Hassign Hvar Hop Hm Hp Hstop Hmatch.
  assert (Hat : assignIf_at toLongNumber toks tok
                = assignIf_compare toLongNumber toks (Some p) "&" m).
  { unfold assignIf_at. rewrite Heq, Hassign. cbn [String.eqb Ascii.eqb negb].
    fold varid. destruct (Nat.eqb_spec varid 0) as [E|_]; [contradiction|].
    fold m. destruct (Z.ltb_spec m 0) as [E|_]; [lia|].
    rewrite Hop. cbn [at0].
    pose proof (Match_if_comparison _ _ _ Hmatch) as (_ & _ & _ & Hlen).
    change 4%Z with (Z.of_nat 4). rewrite tokAt_forward by lia.
    rewrite (assignIf_scan_reaches toLongNumber toks (tok + 4) p varid "&" m
               Hp Hstop Hmatch).
    reflexivity. }
  rewrite Hat. unfold assignIf_compare, assign_mismatch. fold t.
  cbn [Ascii.eqb Bool.eqb].
  split; intros ->; cbn [String.eqb Ascii.eqb Bool.eqb andb];
    destruct (negb (Z.land m t =? t)%Z); reflexivity.
Qed.

Lemma assignIf_and_rule_witness :
  assignIf_at decodeLiteral ex_and_eq 2 = [assignIfError (Some 7) false].
Proof.
  assert (Hstop : forall r, 2 + 4 <= r < 7 ->
                    stop_token (strOf ex_and_eq (Some r)) = false).
  { intros r Hr. assert (r = 6) by lia. subst r. reflexivity. }
  destruct (assignIf_and_rule decodeLiteral ex_and_eq 2 7
              eq_refl eq_refl ltac:(vm_compute; lia) eq_refl
              ltac:(vm_compute; discriminate) ltac:(lia) Hstop eq_refl)
    as [H _].
  exact (H eq_refl).
Defined.

(** C5. Stop-token bound: no finding of an assignment is anchored at or
    after an open parenthesis, a closing brace or a [=] that follows the
    assignment, and a scan that reaches the first such token stops there
    without a finding. *)
Theorem assignIf_stop_token_bound (toLongNumber : string -> Z)
        (toks : list Token) (tok s : nat) :
  tok + 4 <= s ->
  stop_token (strOf toks (Some s)) = true ->
  (forall f, In f (assignIf_at toLongNumber toks tok) ->
             exists r, anchor f = Some r /\ r < s)
  /\ (forall v bitop num,
        (forall r, tok + 4 <= r < s ->
           stop_token (strOf toks (Some r)) = false
           /\ Token.Match toks (Some r)
                "if ( %varid% %any% %num% &&|%oror%|)" v = false) ->
        assignIf_scan_from toLongNumber toks (Some (tok + 4)) v bitop num
        = ScanStop s).
Proof.
  intros Hs Hstop. split.
  - intros f Hin.
    destruct (assignIf_at_cases toLongNumber toks tok) as [E|(v & b & n & E)];
      rewrite E in Hin; [destruct Hin|].
    unfold assignIf_scan_from in Hin.
    apply assignIf_scan_bound with (s := s) in Hin; [|exact Hs|exact Hstop].
    destruct Hin as (r & Hr & Hb). exists r. split; [exact Hr|lia].
  - intros v bitop num Hfree.
    pose proof (stop_token_in_range _ _ Hstop) as Hlen.
    unfold assignIf_scan_from.
    replace (List.length toks - (tok + 4))
      with ((s - (tok + 4)) + S (List.length toks - S s)) by lia.
    rewrite assignIf_scan_skip
      by (intros r Hr; apply Hfree; lia).
    replace (tok + 4 + (s - (tok + 4))) with s by lia.
    cbn [assignIf_scan]. now rewrite Hstop.
Qed.

Lemma assignIf_stop_token_bound_witness :
  assignIf_scan_from decodeLiteral ex_reassigned (Some (2 + 4)) 1 "&" 3
  = ScanStop 8.
Proof.
  destruct (assignIf_stop_token_bound decodeLiteral ex_reassigned 2 8
              ltac:(lia) eq_refl) as [_ H].
  apply H. intros r Hr.
  assert (E : r = 6 \/ r = 7) by lia.
  destruct E as [-> | ->]; split; reflexivity.
Defined.

(** C6 as stated fails: the scan of the source and the scan of the
    specification differ on
    [; x = y & 3 ; if ( x < 9 ) { }]: the source matches the comparison
    with [<] and halts at its [if]; the specification would pass over it
    and stop at the parenthesis that follows. *)
Lemma assignIf_scan_halts_at_other_operator :
  strAt ex_and_lt (Some 7) 3 = "<"
  /\ assignIf_scan_from decodeLiteral ex_and_lt (Some 6) 1 "&" 3
     = ScanMatch 7 []
  /\ assignIf_scan_from decodeLiteral ex_and_lt (Some 6) 1 "&" 3
     <> spec_scan_from decodeLiteral ex_and_lt (Some 6) 1 "&" 3.
Proof.
  split; [reflexivity|]. split; [reflexivity|].
  vm_compute. discriminate.
Qed.

(** C6, as the source has it.  The forward scan halts at the first
    token, before any stop token, where [if ( var OP num2 <end>] matches
    on the variable of the assignment, [OP] being any token; the
    comparison found there is the only one evaluated, and it yields a
    finding only when [OP] is [==] or [!=]: with any other operator the
    scan halts as well, without a finding. *)
Theorem assignIf_first_comparison_halts (toLongNumber : string -> Z)
        (toks : list Token) (q p v : nat) (bitop : ascii) (num : Z) :
  q <= p ->
  (forall r, q <= r < p -> stop_token (strOf toks (Some r)) = false) ->
  Token.Match toks (Some p) "if ( %varid% %any% %num% &&|%oror%|)" v = true ->
  assignIf_scan_from toLongNumber toks (Some q) v bitop num
  = ScanMatch p (assignIf_compare toLongNumber toks (Some p) bitop num)
  /\ (strAt toks (Some p) 3 <> "==" -> strAt toks (Some p) 3 <> "!=" ->
      assignIf_scan_from toLongNumber toks (Some q) v bitop num
      = ScanMatch p []).
Proof.
  intros Hqp Hstop Hm.
  pose proof (assignIf_scan_reaches toLongNumber toks q p v bitop num
                Hqp Hstop Hm) as E.
  split; [exact E|].
  intros N1 N2. rewrite E.
  now rewrite assignIf_compare_other_operator.
Qed.

Lemma assignIf_first_comparison_halts_witness :
  assignIf_scan_from decodeLiteral ex_and_lt (Some 6) 1 "&" 3
  = ScanMatch 7 [].
Proof.
  assert (Hstop : forall r, 6 <= r < 7 ->
                    stop_token (strOf ex_and_lt (Some r)) = false).
  { intros r Hr. assert (r = 6) by lia. subst r. reflexivity. }
  destruct (assignIf_first_comparison_halts decodeLiteral ex_and_lt 6 7 1
              "&" 3 ltac:(lia) Hstop eq_refl) as [_ H].
  apply H; vm_compute; discriminate.
Defined.

(** X16. The two scans nevertheless report the same findings on every
    token list: a comparison that the specification would pass over has an
    open parenthesis as its second token, which stops the scan. *)
Lemma spec_scan_same_findings (toLongNumber : string -> Z)
      (toks : list Token) (n : nat) :
  forall q v bitop num,
    scan_errors (assignIf_scan toLongNumber toks n q v bitop num)
    = scan_errors (spec_scan toLongNumber toks n q v bitop num).
Proof.
  induction n as [|n IH]; intros q v bitop num; [reflexivity|].
  cbn [assignIf_scan spec_scan].
  destruct (stop_token (strOf toks (Some q))); [reflexivity|].
  destruct (Token.Match toks (Some q)
              "if ( %varid% %any% %num% &&|%oror%|)" v) eqn:Ea;
    destruct (Token.Match toks (Some q)
                "if ( %varid% ==|!= %num% &&|%oror%|)" v) eqn:Ee.
  - reflexivity.
  - cbn [scan_errors].
    rewrite assignIf_compare_other_operator.
    + destruct n as [|n]; [reflexivity|]. cbn [spec_scan].
      apply Match_if_comparison in Ea as (_ & Hopen & _).
      rewrite Hopen. reflexivity.
    + intros E. assert (Ht : Token.Match toks (Some q)
                  "if ( %varid% ==|!= %num% &&|%oror%|)" v = true)
        by (apply Match_if_equality_iff; auto). congruence.
    + intros E. assert (Ht : Token.Match toks (Some q)
                  "if ( %varid% ==|!= %num% &&|%oror%|)" v = true)
        by (apply Match_if_equality_iff; auto). congruence.
  - apply Match_if_equality_iff in Ee as [Ht _]. congruence.
  - apply IH.
Qed.

(* ================================================================== *)
(** ** The bit tests                                                   *)
(* ================================================================== *)

(** [m] is a subset mask of [t] exactly when or-ing [m] into [t] changes
    nothing. *)
Lemma land_eq_iff_lor_eq (m t : Z) :
  Z.land m t = m <-> Z.lor m t = t.
Proof.
  split; intros H; apply Z.bits_inj'; intros n _.
  - assert (E : Z.testbit (Z.land m t) n = Z.testbit m n) by now rewrite H.
    rewrite Z.land_spec in E. rewrite Z.lor_spec.
    destruct (Z.testbit m n), (Z.testbit t n); simpl in *; congruence.
  - assert (E : Z.testbit (Z.lor m t) n = Z.testbit t n) by now rewrite H.
    rewrite Z.lor_spec in E. rewrite Z.land_spec.
    destruct (Z.testbit m n), (Z.testbit t n); simpl in *; congruence.
Qed.

Lemma lor_test_is_land_test (m t : Z) :
  (Z.lor m t =? t)%Z = (Z.land m t =? m)%Z.
Proof.
  destruct (Z.eqb_spec (Z.lor m t) t) as [H|H];
    destruct (Z.eqb_spec (Z.land m t) m) as [H'|H']; try reflexivity.
  - apply land_eq_iff_lor_eq in H. contradiction.
  - apply land_eq_iff_lor_eq in H'. contradiction.
Qed.

(** C3. OR-combinator rule: the test of [assignIf] for [|],
    [(num & num2) != num], the test of [comparison] for [|],
    [(num1 | num2) != num2], and the criterion of the specification,
    "equality is impossible when [(m & t) == m] fails", are one and the
    same predicate; so [assignIf] reports a comparison it has matched
    after [x = x2 | m], and [comparison] reports an [|] candidate with
    non-negative literals, exactly when the criterion says that equality
    is impossible. *)
Theorem or_rule_equivalence (toLongNumber : string -> Z) (toks : list Token)
        (m t : Z) :
  assign_mismatch "|" m t = equality_impossible OR m t
  /\ comparison_mismatch "|" m t = equality_impossible OR m t
  /\ (forall tok2,
        toLongNumber (strAt toks tok2 4) = t ->
        (strAt toks tok2 3 = "==" ->
         assignIf_compare toLongNumber toks tok2 "|" m
         = if equality_impossible OR m t
           then [assignIfError tok2 false] else [])
        /\ (strAt toks tok2 3 = "!=" ->
            assignIf_compare toLongNumber toks tok2 "|" m
            = if equality_impossible OR m t
              then [assignIfError tok2 true] else []))
  /\ (forall tok compareToken,
        strOf toks tok = "|" ->
        toLongNumber (strAt toks compareToken 1) = t ->
        (0 <= t)%Z ->
        comparison_check toLongNumber toks tok compareToken m
        = if equality_impossible OR m t
          then Reported
                 (comparisonError tok "|" m (strOf toks compareToken) t
                    (if String.eqb (strOf toks compareToken) "=="
                     then false else true))
          else Skipped).
Proof.
  assert (Ea : assign_mismatch "|" m t = equality_impossible OR m t)
    by reflexivity.
  assert (Ec : comparison_mismatch "|" m t = equality_impossible OR m t).
  { unfold comparison_mismatch, equality_impossible.
    cbn [String.eqb Ascii.eqb Bool.eqb andb orb].
    now rewrite lor_test_is_land_test. }
  split; [exact Ea|]. split; [exact Ec|]. split.
  - intros tok2 Ht. unfold assignIf_compare. rewrite Ht, Ea.
    split; intros ->; cbn [String.eqb Ascii.eqb Bool.eqb andb];
      destruct (equality_impossible OR m t); reflexivity.
  - intros tok compareToken Hop Ht Hpos. unfold comparison_check.
    rewrite Ht, Hop, Ec.
    destruct (Z.ltb_spec t 0) as [E|_]; [lia|].
    destruct (equality_impossible OR m t); reflexivity.
Qed.

Lemma or_rule_equivalence_witness :
  assignIf_compare decodeLiteral ex_or_eq (Some 7) "|" 3
  = [assignIfError (Some 7) false].
Proof.
  destruct (or_rule_equivalence decodeLiteral ex_or_eq 3 4)
    as (_ & _ & H & _).
  destruct (H (Some 7) eq_refl) as [Heq _].
  exact (Heq eq_refl).
Defined.

(** The AND test of both analyses is the criterion of the specification
    as well. *)
Lemma and_rule_equivalence (m t : Z) :
  assign_mismatch "&" m t = equality_impossible AND m t
  /\ comparison_mismatch "&" m t = equality_impossible AND m t.
Proof.
  unfold assign_mismatch, comparison_mismatch, equality_impossible.
  cbn [String.eqb Ascii.eqb Bool.eqb andb orb].
  split; [reflexivity|]. now rewrite orb_false_r.
Qed.

(* ================================================================== *)
(** ** The inline-expression analysis                                  *)
(* ================================================================== *)

Section ComparisonFacts.

Variable toLongNumber : string -> Z.
Variable toks : list Token.

Lemma comparison_check_anchor (tok compareToken : cursor) (num1 : Z)
      (f : Finding) :
  comparison_check toLongNumber toks tok compareToken num1 = Reported f ->
  anchor f = tok.
Proof.
  unfold comparison_check.
  destruct (_ <? 0)%Z; [discriminate|].
  destruct (comparison_mismatch _ _ _); [|discriminate].
  intros H. inversion H. reflexivity.
Qed.

Lemma comparison_at_anchor (tok : nat) (f : Finding) :
  comparison_at toLongNumber toks tok = Reported f ->
  anchor f = Some tok /\ tok < List.length toks.
Proof.
  unfold comparison_at.
  destruct (Token.Match toks (Some tok) _ 0) eqn:Em; [|discriminate].
  apply Match_inline in Em.
  destruct (_ <? 0)%Z; [discriminate|].
  destruct (String.eqb _ ")").
  - destruct (linkOf toks _) as [l|]; [|discriminate].
    destruct (negb _); [discriminate|].
    intros H. apply comparison_check_anchor in H. now split.
  - intros H. apply comparison_check_anchor in H. now split.
Qed.

End ComparisonFacts.

(** C7. Inline parenthesis validation: when the token between the mask
    and the comparison operator is a closing parenthesis, a finding is
    only reported if the token in front of the matching open bracket is
    [(], [||] or [&&]; when it is another token, or when there is none,
    the candidate is skipped without a finding. *)
Theorem comparison_parenthesis_validated (toLongNumber : string -> Z)
        (toks : list Token) (tok : nat) :
  strOf toks (tokAt toks (Some tok) 2) = ")" ->
  (forall f, comparison_at toLongNumber toks tok = Reported f ->
     exists l, linkOf toks (tokAt toks (Some tok) 2) = Some l
               /\ In (strOf toks (previous (Some l))) ["("; "||"; "&&"])
  /\ (forall l, linkOf toks (tokAt toks (Some tok) 2) = Some l ->
        ~ In (strOf toks (previous (Some l))) ["("; "||"; "&&"] ->
        comparison_at toLongNumber toks tok = Skipped).
Proof.
  intros Hparen. unfold comparison_at. rewrite Hparen.
  cbn [String.eqb Ascii.eqb Bool.eqb].
  destruct (Token.Match toks (Some tok) _ 0).
  2: { split; [discriminate|reflexivity]. }
  destruct (_ <? 0)%Z.
  1: { split; [discriminate|reflexivity]. }
  destruct (linkOf toks (tokAt toks (Some tok) 2)) as [l|].
  2: { split; [discriminate|]. intros l H. discriminate. }
  destruct (Token.Match toks (previous (Some l)) "(|%oror%|&&" 0) eqn:Ep;
    cbn [negb].
  - apply Match_before_open in Ep. split.
    + intros f _. now exists l.
    + intros l' E N. inversion E; subst. contradiction.
  - split; [discriminate|reflexivity].
Qed.

Lemma comparison_parenthesis_validated_witness :
  exists l, linkOf ex_inline (tokAt ex_inline (Some 4) 2) = Some l
            /\ In (strOf ex_inline (previous (Some l))) ["("; "||"; "&&"].
Proof.
  destruct (comparison_parenthesis_validated decodeLiteral ex_inline 4 eq_refl)
    as [H _].
  exact (H (comparisonError (Some 4) "&" 16 "==" 17 false) eq_refl).
Defined.

(** [( f ( a & 0x10 ) == 0x11 )]: the parenthesis closes the arguments
    of a call, and the candidate is skipped. *)
Lemma comparison_skips_call_parenthesis :
  comparison decodeLiteral ex_inline_call style = ([], true).
Proof. reflexivity. Qed.

(* ================================================================== *)
(** ** The else-if chain analysis                                      *)
(* ================================================================== *)

Section ChainFacts.

Variable toLongNumber : string -> Z.
Variable toks : list Token.

Lemma snd_let_pair (A B C : Type) (x : A * B) (g : A -> C) :
  snd (let (a, b) := x in (g a, b)) = snd x.
Proof. now destruct x. Qed.

Lemma fst_let_pair (A B C : Type) (x : A * B) (g : A -> C) :
  fst (let (a, b) := x in (g a, b)) = g (fst x).
Proof. now destruct x. Qed.

Lemma multiCondition_chain_anchor (fuel : nat) :
  forall tok varid num1 tok2 f,
    In f (fst (multiCondition_chain toLongNumber toks fuel tok varid num1
                 tok2)) ->
    exists i, anchor f = Some i /\ i < List.length toks.
Proof.
  induction fuel as [|fuel IH]; intros tok varid num1 tok2 f;
    cbn [multiCondition_chain];
    destruct (Token.simpleMatch toks tok2 "} else { if (");
    try (intros []).
  rewrite fst_let_pair. intros Hin. apply in_app_or in Hin as [Hin|Hin].
  - destruct (Token.Match toks (tokAt toks tok2 4) _ varid) eqn:Em;
      [|destruct Hin].
    apply Match_link_condition in Em as (i & Ei & Hi).
    destruct (_ <? 0)%Z; [destruct Hin|].
    destruct (_ =? _)%Z; [|destruct Hin].
    destruct Hin as [<-|[]]. exists i. now split.
  - now apply IH in Hin.
Qed.

Lemma multiCondition_scope_anchor (fuel : nat) (i : Scope) (f : Finding) :
  In f (fst (multiCondition_scope toLongNumber toks fuel i)) ->
  exists k, anchor f = Some k /\ k < List.length toks.
Proof.
  unfold multiCondition_scope.
  destruct (_ && _)%bool; [|intros []].
  destruct (_ =? 0); [intros []|].
  destruct (_ <? 0)%Z; [intros []|].
  apply multiCondition_chain_anchor.
Qed.

Lemma multiCondition_scopes_anchor (fuel : nat) (scopes : list Scope)
      (f : Finding) :
  In f (fst (multiCondition_scopes toLongNumber toks fuel scopes)) ->
  exists k, anchor f = Some k /\ k < List.length toks.
Proof.
  induction scopes as [|i rest IH]; [intros []|].
  cbn [multiCondition_scopes].
  destruct (multiCondition_scope toLongNumber toks fuel i) as [fs done]
    eqn:Ei.
  assert (Hfs : forall g, In g fs ->
                  exists k, anchor g = Some k /\ k < List.length toks).
  { intros g Hg. apply (multiCondition_scope_anchor fuel i).
    now rewrite Ei. }
  destruct done; [|apply Hfs].
  destruct (multiCondition_scopes toLongNumber toks fuel rest)
    as [fs' done'].
  cbn [fst] in *. intros Hin. apply in_app_or in Hin as [Hin|Hin]; auto.
Qed.

End ChainFacts.

Section AnchorFacts.

Variable toLongNumber : string -> Z.
Variable toks : list Token.

Lemma assignIf_scan_anchor (n : nat) :
  forall q v bitop num f,
    In f (scan_errors (assignIf_scan toLongNumber toks n q v bitop num)) ->
    exists r, anchor f = Some r /\ r < List.length toks.
Proof.
  induction n as [|n IH]; intros q v bitop num f; [intros []|].
  cbn [assignIf_scan].
  destruct (stop_token _); [intros []|].
  destruct (Token.Match toks (Some q) _ v) eqn:Em.
  - apply Match_if_comparison in Em as (_ & _ & _ & Hlen).
    intros Hin. apply assignIf_compare_anchor in Hin.
    exists q. split; [exact Hin|lia].
  - apply IH.
Qed.

Lemma comparison_loop_anchor (positions : list nat) (f : Finding) :
  In f (fst (comparison_loop toLongNumber toks positions)) ->
  exists r, anchor f = Some r /\ r < List.length toks.
Proof.
  induction positions as [|tok rest IH]; [intros []|].
  cbn [comparison_loop].
  destruct (comparison_at toLongNumber toks tok) as [|g|] eqn:E.
  - exact IH.
  - apply comparison_at_anchor in E.
    destruct (comparison_loop toLongNumber toks rest) as [fs ok].
    cbn [fst] in *. intros [<-|Hin]; [now exists tok|auto].
  - intros [].
Qed.

End AnchorFacts.

(** C8. Anchor validity: every finding that one of the three analyses
    hands to the error log is anchored at a token of the token list,
    never at the null pointer. *)
Theorem findings_have_valid_anchor (toLongNumber : string -> Z)
        (toks : list Token) (settings : Settings) (scopeList : list Scope)
        (fuel : nat) :
  let valid f := exists i, anchor f = Some i /\ i < List.length toks in
  Forall valid (assignIf toLongNumber toks settings)
  /\ Forall valid (fst (comparison toLongNumber toks settings))
  /\ Forall valid
       (fst (multiCondition toLongNumber toks fuel settings scopeList)).
Proof.
  intros valid. repeat split; apply Forall_forall; intros f Hin.
  - unfold assignIf in Hin. destruct (negb _); [destruct Hin|].
    apply in_flat_map in Hin as (tok & _ & Hin).
    destruct (assignIf_at_cases toLongNumber toks tok) as [E|(v & b & n & E)];
      rewrite E in Hin; [destruct Hin|].
    unfold assignIf_scan_from in Hin.
    now apply assignIf_scan_anchor in Hin.
  - unfold comparison in Hin. destruct (negb _); [destruct Hin|].
    now apply comparison_loop_anchor in Hin.
  - unfold multiCondition in Hin. destruct (negb _); [destruct Hin|].
    now apply multiCondition_scopes_anchor in Hin.
Qed.

(* ================================================================== *)
(** ** Negative literals                                               *)
(* ================================================================== *)

(** C4 fails in [assignIf]: the comparison constant is never tested for
    its sign.  On [; x = y & 3 ; if ( x == -1 ) { }] the constant decodes
    to a negative value and a finding is reported all the same. *)
Theorem assignIf_reports_negative_comparison_constant :
  Z.lt (decodeLiteral (strAt ex_and_eq_negative (Some 7) 4)) 0
  /\ assignIf decodeLiteral ex_and_eq_negative style
     = [assignIfError (Some 7) false].
Proof. split; reflexivity. Qed.

(** Where the source does test the sign, a negative literal leaves the
    candidate without a finding and the analysis goes on: the mask of
    the assignment in [assignIf], both literals in [comparison], and both
    masks in [multiCondition], whose chain walk moves on to the next
    link. *)
Lemma negative_literals_skipped_where_tested (toLongNumber : string -> Z)
      (toks : list Token) :
  (forall tok, Z.lt (toLongNumber (strAt toks (Some tok) 3)) 0 ->
     assignIf_at toLongNumber toks tok = [])
  /\ (forall tok, Z.lt (toLongNumber (strAt toks (Some tok) 1)) 0 ->
        comparison_at toLongNumber toks tok = Skipped)
  /\ (forall tok compareToken num1,
        Z.lt (toLongNumber (strAt toks compareToken 1)) 0 ->
        comparison_check toLongNumber toks tok compareToken num1 = Skipped)
  /\ (forall fuel i,
        Z.lt (toLongNumber (strAt toks (classDef i) 4)) 0 ->
        multiCondition_scope toLongNumber toks fuel i = ([], true))
  /\ (forall fuel tok varid num1 tok2,
        Token.simpleMatch toks tok2 "} else { if (" = true ->
        Z.lt (toLongNumber (strAt toks (tokAt toks tok2 4) 3)) 0 ->
        let opar := tokAt toks tok2 4 in
        let tok2a := linkOf toks opar in
        let tok2b := if Token.simpleMatch toks tok2a ") {"
                     then linkOf toks (next toks tok2a) else tok2a in
        multiCondition_chain toLongNumber toks (S fuel) tok varid num1 tok2
        = multiCondition_chain toLongNumber toks fuel tok varid num1 tok2b).
Proof.
  repeat split.
  - intros tok H. unfold assignIf_at.
    destruct (negb _); [reflexivity|].
    destruct (Token.Match _ _ _ _); [|reflexivity].
    destruct (_ =? 0); [reflexivity|].
    now destruct (Z.ltb_spec (toLongNumber (strAt toks (Some tok) 3)) 0);
      [|lia].
  - intros tok H. unfold comparison_at.
    destruct (Token.Match _ _ _ _); [|reflexivity].
    now destruct (Z.ltb_spec (toLongNumber (strAt toks (Some tok) 1)) 0);
      [|lia].
  - intros tok compareToken num1 H. unfold comparison_check.
    now destruct (Z.ltb_spec (toLongNumber (strAt toks compareToken 1)) 0);
      [|lia].
  - intros fuel i H. unfold multiCondition_scope.
    destruct (_ && _)%bool; [|reflexivity].
    destruct (_ =? 0); [reflexivity|].
    now destruct (Z.ltb_spec (toLongNumber (strAt toks (classDef i) 4)) 0);
      [|lia].
  - intros fuel tok varid num1 tok2 Hm H opar tok2a tok2b.
    cbn [multiCondition_chain]. rewrite Hm. fold opar tok2a tok2b.
    destruct (Z.ltb_spec (toLongNumber (strAt toks opar 3)) 0);
      [|unfold opar in *; lia].
    destruct (Token.Match toks opar _ varid);
      now destruct (multiCondition_chain toLongNumber toks fuel tok varid
                      num1 tok2b).
Qed.

(* ================================================================== *)
(** ** The else-if chain: findings link by link                        *)
(* ================================================================== *)

Section ChainLinks.

Variable toLongNumber : string -> Z.
Variable toks : list Token.

Lemma match_elems_at_next (i : nat) (pat : list PatElem) (v : nat) :
  match_elems toks (next toks (Some i)) pat v
  = match_elems toks (Some (S i)) pat v.
Proof.
  destruct pat as [|e pat]; [reflexivity|].
  unfold next. destruct (Nat.ltb_spec (S i) (List.length toks)) as [H|H];
    [reflexivity|].
  cbn [match_elems]. apply nth_error_None in H. now rewrite H.
Qed.

Lemma match_elems_unfold (i : nat) (e : PatElem) (pat : list PatElem)
      (v : nat) :
  has_empty_alternative e = false ->
  match_elems toks (Some i) (e :: pat) v
  = match nth_error toks i with
    | Some t => elem_match e v t && match_elems toks (Some (S i)) pat v
    | None => false
    end.
Proof.
  intros He. cbn [match_elems]. rewrite He, match_elems_at_next.
  destruct (nth_error toks i) as [t|]; [|reflexivity].
  now destruct (elem_match e v t).
Qed.

Lemma strAt_forward_total (p k : nat) :
  strAt toks (Some p) (Z.of_nat k) = strOf toks (Some (p + k)).
Proof.
  destruct (Nat.lt_ge_cases (p + k) (List.length toks)) as [H|H].
  - unfold strAt. now rewrite tokAt_forward.
  - unfold strAt, tokAt.
    replace ((Z.of_nat p + Z.of_nat k <? Z.of_nat (List.length toks))%Z)
      with false by (symmetry; apply Z.ltb_ge; lia).
    rewrite andb_false_r. unfold strOf, tokenAt.
    apply nth_error_None in H. now rewrite H.
Qed.

(** A link qualifies when the source's pattern matches at its open
    parenthesis and its mask is non-negative. *)
Lemma link_qualifies_Match (v i : nat) :
  link_qualifies toLongNumber toks v (Some i)
  = Token.Match toks (Some i) "( %varid% ==|& %num% &&|%oror%|)" v
    && Z.leb 0 (toLongNumber (strOf toks (Some (i + 3)))).
Proof.
  unfold link_qualifies, Token.Match. rewrite pattern_link_condition.
  rewrite !match_elems_unfold by reflexivity.
  unfold strOf, tokenAt.
  replace (i + 1) with (S i) by lia.
  replace (i + 2) with (S (S i)) by lia.
  replace (i + 3) with (S (S (S i))) by lia.
  replace (i + 4) with (S (S (S (S i)))) by lia.
  cbn [match_elems elem_match].
  destruct (nth_error toks i) as [t0|]; [|reflexivity].
  destruct (String.eqb (str t0) "("); [|reflexivity].
  destruct (nth_error toks (S i)) as [t1|]; [|reflexivity].
  destruct (varId t1 =? v); [|reflexivity].
  destruct (nth_error toks (S (S i))) as [t2|]; [|reflexivity].
  destruct (existsb (String.eqb (str t2)) ["=="; "&"]); [|reflexivity].
  destruct (nth_error toks (S (S (S i)))) as [t3|]; [|reflexivity].
  destruct (isNumber t3); [|reflexivity].
  destruct (nth_error toks (S (S (S (S i))))) as [t4|]; [|reflexivity].
  destruct (existsb (String.eqb (str t4)) ["&&"; "||"; ")"]); reflexivity.
Qed.

(** The check of one link in the source (lines 161-169) is what the
    specification expects of a link. *)
Lemma link_check_findings (tok : cursor) (varid : nat) (num1 : Z)
      (opar : cursor) :
  (if Token.Match toks opar "( %varid% ==|& %num% &&|%oror%|)" varid
   then
     if (toLongNumber (strAt toks opar 3) <? 0)%Z then []
     else if (Z.land num1 (toLongNumber (strAt toks opar 3))
              =? toLongNumber (strAt toks opar 3))%Z
          then [multiConditionError opar (linenrOf toks tok)]
          else []
   else [])
  = link_findings toLongNumber toks tok varid num1 opar.
Proof.
  unfold link_findings. destruct opar as [i|]; [|reflexivity].
  rewrite link_qualifies_Match.
  destruct (Token.Match toks (Some i) _ varid); [|reflexivity].
  change 3%Z with (Z.of_nat 3). rewrite strAt_forward_total.
  unfold isSubsetMask. rewrite (Z.land_comm num1).
  rewrite Z.ltb_antisym.
  now destruct (Z.leb 0 (toLongNumber (strOf toks (Some (i + 3))))).
Qed.

Lemma multiCondition_chain_flat_map (tok : cursor) (varid : nat)
      (num1 : Z) (fuel : nat) :
  forall tok2,
    fst (multiCondition_chain toLongNumber toks fuel tok varid num1 tok2)
    = flat_map (link_findings toLongNumber toks tok varid num1)
               (chain_links toks fuel tok2).
Proof.
  induction fuel as [|fuel IH]; intros tok2;
    cbn [multiCondition_chain chain_links];
    destruct (Token.simpleMatch toks tok2 "} else { if (");
    try reflexivity.
  rewrite fst_let_pair, IH. cbn [flat_map].
  now rewrite <- link_check_findings.
Qed.

End ChainLinks.

(** C2. Else-if chain analysis: for an if-scope whose condition is
    [if ( var & mask1 ) {] with a nonzero variable identity and a
    non-negative [mask1], the findings are those of the links of the
    chain, taken one by one in the order of the walk: a link whose
    condition reads [( var CMP2 mask2 <end>] on the same variable, with
    [CMP2] one of [==] and [&] and [mask2] non-negative, yields exactly
    one finding when [(mask1 & mask2) == mask2], anchored at its open
    parenthesis and citing the line of the first [if]; any other link
    yields none; every link is tested against the original [mask1]. *)
Theorem multiCondition_chain_rule (toLongNumber : string -> Z)
        (toks : list Token) (fuel : nat) (i : Scope) :
  let tok := classDef i in
  let varid := varIdOf toks (tokAt toks tok 2) in
  let mask1 := toLongNumber (strAt toks tok 4) in
  type i = eIf ->
  Token.Match toks tok "if ( %var% & %num% ) {" 0 = true ->
  varid <> 0 ->
  (0 <= mask1)%Z ->
  fst (multiCondition_scope toLongNumber toks fuel i)
  = flat_map (link_findings toLongNumber toks tok varid mask1)
             (chain_links toks fuel (linkAt toks tok 6)).
Proof.
  intros tok varid mask1 Htype Hmatch Hvar Hmask.
  unfold multiCondition_scope. rewrite Htype. fold tok. rewrite Hmatch.
  cbn [is_eIf andb]. fold varid.
  destruct (Nat.eqb_spec varid 0) as [E|_]; [contradiction|].
  fold mask1. destruct (Z.ltb_spec mask1 0) as [E|_]; [lia|].
  apply multiCondition_chain_flat_map.
Qed.

Lemma multiCondition_chain_rule_witness :
  chain_links ex_chain 5 (linkAt ex_chain (Some 0) 6)
  = [Some 11; Some 21; Some 31]
  /\ fst (multiCondition_scope decodeLiteral ex_chain 5 (mkScope eIf (Some 0)))
     = [multiConditionError (Some 31) 1].
Proof.
  split; [reflexivity|].
  rewrite (multiCondition_chain_rule decodeLiteral ex_chain 5
             (mkScope eIf (Some 0)) eq_refl eq_refl
             ltac:(vm_compute; lia) ltac:(vm_compute; discriminate)).
  reflexivity.
Defined.

(* ================================================================== *)
(** ** The else-if chain: termination of the walk                      *)
(* ================================================================== *)

Section ChainTermination.

Variable toLongNumber : string -> Z.
Variable toks : list Token.

Hypothesis links_ok : well_formed_links toks = true.

(** An open bracket is linked, if at all, to a later token. *)
Lemma open_link_forward (i j : nat) (t : Token) :
  nth_error toks i = Some t -> is_open (str t) = true ->
  link t = Some j -> i < j.
Proof.
  intros Ht Hopen Hlink.
  assert (Hi : In i (seq 0 (List.length toks))).
  { apply in_seq. split; [lia|]. apply nth_error_Some. congruence. }
  unfold well_formed_links in links_ok.
  rewrite forallb_forall in links_ok. specialize (links_ok i Hi).
  unfold link_well_formed in links_ok.
  rewrite Ht, Hlink, Hopen in links_ok.
  apply andb_true_iff in links_ok as [H _].
  apply andb_true_iff in H as [H _].
  now apply Nat.ltb_lt.
Qed.

(** One iteration of the walk leaves the cursor null or strictly
    further down the token list. *)
Lemma chain_step_advances (tok2 : cursor) (i : nat) :
  tok2 = Some i ->
  Token.simpleMatch toks tok2 "} else { if (" = true ->
  let opar := tokAt toks tok2 4 in
  let tok2a := linkOf toks opar in
  let tok2b := if Token.simpleMatch toks tok2a ") {"
               then linkOf toks (next toks tok2a) else tok2a in
  i < List.length toks
  /\ match tok2b with
     | Some k => i < k
     | None => True
     end.
Proof.
  intros -> Hm opar tok2a tok2b.
  apply simpleMatch_else_if in Hm as (i' & t & Ei & Hopar & Ht & Hs).
  inversion Ei; subst i'; clear Ei.
  assert (Hlen : i + 4 < List.length toks)
    by (apply nth_error_Some; congruence).
  split; [lia|].
  assert (Ha : tok2a = link t).
  { unfold tok2a, opar. rewrite Hopar. unfold linkOf, tokenAt.
    now rewrite Ht. }
  assert (Hfwd : match tok2a with Some j => i + 4 < j | None => True end).
  { rewrite Ha. destruct (link t) as [j|] eqn:El; [|exact I].
    apply (open_link_forward _ _ _ Ht); [now rewrite Hs|exact El]. }
  unfold tok2b.
  destruct (Token.simpleMatch toks tok2a ") {") eqn:Ec.
  - apply simpleMatch_close_open in Ec as (j & u & Ej & Hn & Hu & Hsu).
    rewrite Ej in Hfwd. rewrite Hn. unfold linkOf, tokenAt. rewrite Hu.
    destruct (link u) as [k|] eqn:El; [|exact I].
    assert (S j < k)
      by (apply (open_link_forward _ _ _ Hu); [now rewrite Hsu|exact El]).
    lia.
  - destruct tok2a as [j|]; [lia|exact I].
Qed.

Lemma multiCondition_chain_finishes (fuel : nat) :
  forall tok varid num1 tok2,
    match tok2 with
    | Some i => List.length toks - i
    | None => 0
    end <= fuel ->
    snd (multiCondition_chain toLongNumber toks fuel tok varid num1 tok2)
    = true.
Proof.
  induction fuel as [|fuel IH]; intros tok varid num1 tok2 Hfuel;
    cbn [multiCondition_chain];
    destruct (Token.simpleMatch toks tok2 "} else { if (") eqn:Em;
    try reflexivity.
  - destruct tok2 as [i|]; [|discriminate].
    destruct (chain_step_advances (Some i) i eq_refl Em) as [Hi _]. lia.
  - destruct tok2 as [i|]; [|discriminate].
    destruct (chain_step_advances (Some i) i eq_refl Em) as [Hi Hadv].
    rewrite snd_let_pair. apply IH.
    match goal with
    | |- match ?c with _ => _ end <= _ => destruct c as [k|]
    end; lia.
Qed.

Lemma multiCondition_scopes_finish (fuel : nat) (scopes : list Scope) :
  List.length toks <= fuel ->
  snd (multiCondition_scopes toLongNumber toks fuel scopes) = true.
Proof.
  intros Hfuel. induction scopes as [|i rest IH]; [reflexivity|].
  cbn [multiCondition_scopes].
  assert (Hi : snd (multiCondition_scope toLongNumber toks fuel i) = true).
  { unfold multiCondition_scope.
    destruct (_ && _)%bool; [|reflexivity].
    destruct (_ =? 0); [reflexivity|].
    destruct (_ <? 0)%Z; [reflexivity|].
    apply multiCondition_chain_finishes.
    destruct (linkAt toks (classDef i) 6); lia. }
  destruct (multiCondition_scope toLongNumber toks fuel i) as [fs done].
  cbn [snd] in Hi. subst done.
  now destruct (multiCondition_scopes toLongNumber toks fuel rest).
Qed.

End ChainTermination.

(** C10. Chain-walk termination: on a token list whose bracket links are
    well formed, the walk over an else-if chain ends within as many
    iterations as there are tokens, from whatever cursor it starts, and
    so does the whole analysis (each iteration moves the cursor strictly
    forward, [chain_step_advances]). *)
Theorem multiCondition_chain_terminates (toLongNumber : string -> Z)
        (toks : list Token) (fuel : nat) :
  well_formed_links toks = true ->
  List.length toks <= fuel ->
  (forall tok varid num1 tok2,
     snd (multiCondition_chain toLongNumber toks fuel tok varid num1 tok2)
     = true)
  /\ (forall settings scopeList,
        snd (multiCondition toLongNumber toks fuel settings scopeList) = true).
Proof.
  intros Hwf Hfuel. split.
  - intros tok varid num1 tok2.
    apply multiCondition_chain_finishes; [exact Hwf|].
    destruct tok2; lia.
  - intros settings scopeList. unfold multiCondition.
    destruct (negb _); [reflexivity|].
    now apply multiCondition_scopes_finish.
Qed.

Lemma multiCondition_chain_terminates_witness :
  multiCondition decodeLiteral ex_chain 41 style ex_chain_scopes
  = ([multiConditionError (Some 31) 1], true).
Proof.
  destruct (multiCondition_chain_terminates decodeLiteral ex_chain 41
              eq_refl ltac:(vm_compute; lia)) as [_ H].
  specialize (H style ex_chain_scopes).
  destruct (multiCondition decodeLiteral ex_chain 41 style ex_chain_scopes)
    as [fs done] eqn:E.
  cbn [snd] in H. subst done.
  vm_compute in E. inversion E. reflexivity.
Defined.

(** A link whose open parenthesis has no matching token ends the walk
    with that iteration, on any token list. *)
Lemma missing_link_ends_the_walk (toLongNumber : string -> Z)
      (toks : list Token) (fuel : nat) (tok : cursor) (varid : nat)
      (num1 : Z) (tok2 : cursor) :
  linkOf toks (tokAt toks tok2 4) = None ->
  snd (multiCondition_chain toLongNumber toks (S fuel) tok varid num1 tok2)
  = true.
Proof.
  intros Hnull. cbn [multiCondition_chain].
  destruct (Token.simpleMatch toks tok2 "} else { if ("); [|reflexivity].
  rewrite snd_let_pair, Hnull.
  change (Token.simpleMatch toks None ") {") with false. cbv iota.
  now destruct fuel.
Qed.

(** Well-formedness is needed: with a brace linked backwards the walk
    never ends. *)
Lemma backward_link_walk_never_ends (fuel : nat) :
  snd (multiCondition_chain decodeLiteral ex_backward_link fuel None 0 0
         (Some 0)) = false.
Proof.
  induction fuel as [|fuel IH]; [reflexivity|].
  cbn [multiCondition_chain].
  change (Token.simpleMatch ex_backward_link (Some 0) "} else { if (")
    with true.
  cbv iota. rewrite snd_let_pair.
  exact IH.
Qed.

(* ================================================================== *)
(** ** The scenarios of the specification                              *)
(* ================================================================== *)

(** [x = y & 3; if (x == 5)] is always false, [if (x != 5)] always
    true. *)
Example scenario_assignment_mismatch :
  assignIf decodeLiteral ex_and_eq style = [assignIfError (Some 7) false]
  /\ assignIf decodeLiteral ex_and_ne style = [assignIfError (Some 7) true].
Proof. split; reflexivity. Qed.

(** A reassignment between the masked assignment and the comparison
    suppresses the finding. *)
Example scenario_reassignment :
  assignIf decodeLiteral ex_reassigned style = [].
Proof. reflexivity. Qed.

(** [(a & 0x10) == 0x11] is always false. *)
Example scenario_inline_mismatch :
  comparison decodeLiteral ex_inline style
  = ([comparisonError (Some 4) "&" 16 "==" 17 false], true).
Proof. reflexivity. Qed.

(** In the chain [if (x & 6) else if (x == 9) else if (x & 8)
    else if (x == 2)] only the last link is reported, citing line 1. *)
Example scenario_else_if_chain :
  multiCondition decodeLiteral ex_chain 3 style ex_chain_scopes
  = ([multiConditionError (Some 31) 1], true).
Proof. reflexivity. Qed.

(** With the style checks disabled no analysis reports anything. *)
Example scenario_disabled :
  assignIf decodeLiteral ex_and_eq (mkSettings []) = []
  /\ comparison decodeLiteral ex_inline (mkSettings []) = ([], true)
  /\ multiCondition decodeLiteral ex_chain 3 (mkSettings []) ex_chain_scopes
     = ([], true).
Proof. repeat split. Qed.

(* ================================================================== *)
(** ** What the bit tests mean                                         *)
(* ================================================================== *)

(** A value masked with [m] keeps only bits of [m]. *)
Lemma land_result_is_submask (y m t : Z) :
  Z.land y m = t -> Z.land m t = t.
Proof.
  intros <-. now rewrite (Z.land_comm y m), Z.land_assoc, Z.land_diag.
Qed.

(** A value or-ed with [m] has all bits of [m]. *)
Lemma lor_result_is_supermask (y m t : Z) :
  Z.lor y m = t -> Z.land m t = m.
Proof.
  intros <-. apply Z.bits_inj'; intros n _.
  rewrite Z.land_spec, Z.lor_spec.
  destruct (Z.testbit y n), (Z.testbit m n); reflexivity.
Qed.

Lemma assign_mismatch_bits_and (m t : Z) :
  assign_mismatch "&" m t = true -> forall y, Z.land y m <> t.
Proof.
  unfold assign_mismatch. cbn [Ascii.eqb Bool.eqb]. intros H y E.
  apply land_result_is_submask in E. rewrite E, Z.eqb_refl in H.
  discriminate.
Qed.

Lemma assign_mismatch_bits_or (m t : Z) :
  assign_mismatch "|" m t = true -> forall y, Z.lor y m <> t.
Proof.
  unfold assign_mismatch. cbn [Ascii.eqb Bool.eqb]. intros H y E.
  apply lor_result_is_supermask in E. rewrite E, Z.eqb_refl in H.
  discriminate.
Qed.

(** X1. The bit test of [assignIf] as a fact about integers: the test
    for [&], [(m & t) != t], holds exactly when no integer [y] has
    [y & m] equal to [t]; the test for [|], [(m & t) != m], holds exactly
    when no integer [y] has [y | m] equal to [t]. *)
Theorem assign_mismatch_exact (m t : Z) :
  (assign_mismatch "&" m t = true <-> forall y, Z.land y m <> t)
  /\ (assign_mismatch "|" m t = true <-> forall y, Z.lor y m <> t).
Proof.
  unfold assign_mismatch. cbn [Ascii.eqb Bool.eqb]. split; split.
  - intros H y E. apply land_result_is_submask in E.
    rewrite E, Z.eqb_refl in H. discriminate.
  - intros H. destruct (Z.eqb_spec (Z.land m t) t) as [E|_]; [|reflexivity].
    exfalso. apply (H t). now rewrite Z.land_comm.
  - intros H y E. apply lor_result_is_supermask in E.
    rewrite E, Z.eqb_refl in H. discriminate.
  - intros H. destruct (Z.eqb_spec (Z.land m t) m) as [E|_]; [|reflexivity].
    exfalso. apply (H t). rewrite Z.lor_comm. now apply land_eq_iff_lor_eq.
Qed.

(** X2. The bit test of [comparison] is exact: for [&] it fails exactly
    when [(X & num1) == num2] holds for no [X], for [|] exactly when
    [(X | num1) == num2] holds for no [X]. *)
Theorem comparison_mismatch_exact (num1 num2 : Z) :
  (comparison_mismatch "&" num1 num2 = true
   <-> forall X, Z.land X num1 <> num2)
  /\ (comparison_mismatch "|" num1 num2 = true
      <-> forall X, Z.lor X num1 <> num2).
Proof.
  unfold comparison_mismatch.
  cbn [String.eqb Ascii.eqb Bool.eqb andb orb]. rewrite orb_false_r.
  split; split.
  - intros H X E. apply land_result_is_submask in E.
    rewrite E, Z.eqb_refl in H. discriminate.
  - intros H.
    destruct (Z.eqb_spec (Z.land num1 num2) num2) as [E|_]; [|reflexivity].
    exfalso. apply (H num2). now rewrite Z.land_comm.
  - intros H X E.
    assert (E' : Z.lor num1 num2 = num2).
    { rewrite <- E at 1. rewrite (Z.lor_comm X num1), Z.lor_assoc, Z.lor_diag.
      now rewrite Z.lor_comm. }
    rewrite E', Z.eqb_refl in H. discriminate.
  - intros H.
    destruct (Z.eqb_spec (Z.lor num1 num2) num2) as [E|_]; [|reflexivity].
    exfalso. apply (H num2). now rewrite Z.lor_comm.
Qed.

(* ================================================================== *)
(** ** The direct-assignment analysis: what a finding certifies        *)
(* ================================================================== *)

Section AssignIfConverse.

Variable toLongNumber : string -> Z.
Variable toks : list Token.

Lemma tokAt_back2 (tok j : nat) :
  tokAt toks (Some tok) (-2) = Some j -> tok = j + 2.
Proof.
  unfold tokAt.
  destruct ((0 <=? Z.of_nat tok + -2)%Z) eqn:E1; [|discriminate].
  destruct ((Z.of_nat tok + -2 <? Z.of_nat (List.length toks))%Z);
    [|discriminate].
  cbn [andb]. intros H. inversion H. apply Z.leb_le in E1. lia.
Qed.

(** What a match of the assignment pattern says about the tokens around
    the [=] at [tok]. *)
Lemma Match_assignment_shape (tok : nat) :
  Token.Match toks (tokAt toks (Some tok) (-2))
    "[;{}] %var% = %var% [&|] %num% ;" 0 = true ->
  2 <= tok /\ tok + 4 < List.length toks
  /\ (exists t, nth_error toks (tok + 1) = Some t /\ isName t = true)
  /\ (strAt toks (Some tok) 2 = "&" \/ strAt toks (Some tok) 2 = "|")
  /\ (exists t, nth_error toks (tok + 3) = Some t /\ isNumber t = true)
  /\ strOf toks (Some (tok + 4)) = ";".
Proof.
  unfold Token.Match. rewrite pattern_assignment.
  destruct (tokAt toks (Some tok) (-2)) as [j|] eqn:Ej; [|discriminate].
  apply tokAt_back2 in Ej. subst tok.
  rewrite !match_elems_unfold by reflexivity. cbn [elem_match match_elems].
  destruct (nth_error toks j) as [t0|]; [|discriminate].
  intros H. apply andb_true_iff in H as [_ H].
  destruct (nth_error toks (S j)) as [t1|]; [|discriminate].
  apply andb_true_iff in H as [_ H].
  destruct (nth_error toks (S (S j))) as [t2|]; [|discriminate].
  apply andb_true_iff in H as [_ H].
  destruct (nth_error toks (S (S (S j)))) as [t3|] eqn:H3; [|discriminate].
  apply andb_true_iff in H as [M3 H].
  destruct (nth_error toks (S (S (S (S j))))) as [t4|] eqn:H4; [|discriminate].
  apply andb_true_iff in H as [M4 H].
  destruct (nth_error toks (S (S (S (S (S j)))))) as [t5|] eqn:H5;
    [|discriminate].
  apply andb_true_iff in H as [M5 H].
  destruct (nth_error toks (S (S (S (S (S (S j))))))) as [t6|] eqn:H6;
    [|discriminate].
  apply andb_true_iff in H as [M6 _]. apply String.eqb_eq in M6.
  replace (S (S (S j))) with (j + 2 + 1) in H3 by lia.
  replace (S (S (S (S j)))) with (j + 2 + 2) in H4 by lia.
  replace (S (S (S (S (S j))))) with (j + 2 + 3) in H5 by lia.
  replace (S (S (S (S (S (S j)))))) with (j + 2 + 4) in H6 by lia.
  split; [lia|]. split; [apply nth_error_Some; congruence|].
  split; [now exists t3|]. split.
  - change 2%Z with (Z.of_nat 2). rewrite (strAt_forward _ _ _ _ H4).
    destruct (str t4) as [|c [|d s]]; try discriminate.
    cbn [contains_chr] in M4.
    destruct (Ascii.eqb_spec c "&") as [E|_]; [rewrite E; now left|].
    destruct (Ascii.eqb_spec c "|") as [E|_]; [rewrite E; now right|].
    discriminate.
  - split; [now exists t5|]. now rewrite (strOf_token _ _ _ H6).
Qed.

(** Where the scan halts on a match, no stop token came before and the
    pattern matches there. *)
Lemma assignIf_scan_match_inv (n : nat) :
  forall q v bitop num p errs,
    assignIf_scan toLongNumber toks n q v bitop num = ScanMatch p errs ->
    q <= p
    /\ (forall r, q <= r < p -> stop_token (strOf toks (Some r)) = false)
    /\ Token.Match toks (Some p) "if ( %varid% %any% %num% &&|%oror%|)" v
       = true
    /\ errs = assignIf_compare toLongNumber toks (Some p) bitop num.
Proof.
  induction n as [|n IH]; intros q v bitop num p errs; [discriminate|].
  cbn [assignIf_scan].
  destruct (stop_token (strOf toks (Some q))) eqn:Es; [discriminate|].
  destruct (Token.Match toks (Some q) _ v) eqn:Em.
  - intros H. inversion H; subst. repeat split; auto. intros r Hr. lia.
  - intros H. apply IH in H as (Hq & Hstop & Hm & He).
    split; [lia|]. split; [|now split].
    intros r Hr. destruct (Nat.eq_dec r q) as [->|Hne]; [exact Es|].
    apply Hstop. lia.
Qed.

Lemma assignIf_compare_inv (c : cursor) (bitop : ascii) (num : Z)
      (f : Finding) :
  In f (assignIf_compare toLongNumber toks c bitop num) ->
  assign_mismatch bitop num (toLongNumber (strAt toks c 4)) = true
  /\ ((strAt toks c 3 = "==" /\ f = assignIfError c false)
      \/ (strAt toks c 3 = "!=" /\ f = assignIfError c true)).
Proof.
  unfold assignIf_compare.
  destruct (assign_mismatch bitop num (toLongNumber (strAt toks c 4)));
    rewrite ?andb_false_r, ?andb_true_r; [|intros []].
  destruct (String.eqb_spec (strAt toks c 3) "==") as [E|_].
  - intros [<-|[]]. split; [reflexivity|]. left. now split.
  - destruct (String.eqb_spec (strAt toks c 3) "!=") as [E|_]; [|intros []].
    intros [<-|[]]. split; [reflexivity|]. right. now split.
Qed.

(** Every finding of the assignment at [tok] comes with the reasons the
    source has checked. *)
Lemma assignIf_at_inv (tok : nat) (f : Finding) :
  In f (assignIf_at toLongNumber toks tok) ->
  exists p,
    let varid := varIdOf toks (previous (Some tok)) in
    let m := toLongNumber (strAt toks (Some tok) 3) in
    let t := toLongNumber (strAt toks (Some p) 4) in
    strOf toks (Some tok) = "="
    /\ Token.Match toks (tokAt toks (Some tok) (-2))
         "[;{}] %var% = %var% [&|] %num% ;" 0 = true
    /\ varid <> 0 /\ (0 <= m)%Z
    /\ tok + 4 < p
    /\ (forall r, tok + 4 <= r < p ->
          stop_token (strOf toks (Some r)) = false)
    /\ Token.Match toks (Some p) "if ( %varid% %any% %num% &&|%oror%|)" varid
       = true
    /\ ((strAt toks (Some p) 3 = "==" /\ f = assignIfError (Some p) false)
        \/ (strAt toks (Some p) 3 = "!=" /\ f = assignIfError (Some p) true))
    /\ assign_mismatch (at0 (strAt toks (Some tok) 2)) m t = true.
Proof.
  unfold assignIf_at.
  destruct (String.eqb_spec (strOf toks (Some tok)) "=") as [Heq|_];
    cbn [negb]; [|intros []].
  destruct (Token.Match toks (tokAt toks (Some tok) (-2)) _ 0) eqn:Ha;
    [|intros []].
  destruct (Nat.eqb_spec (varIdOf toks (previous (Some tok))) 0) as [|Hv];
    [intros []|].
  destruct (Z.ltb_spec (toLongNumber (strAt toks (Some tok) 3)) 0) as [|Hm];
    [intros []|].
  pose proof (Match_assignment_shape tok Ha) as (_ & Hlen & _ & _ & _ & Hsemi).
  change 4%Z with (Z.of_nat 4). rewrite tokAt_forward by exact Hlen.
  unfold assignIf_scan_from.
  destruct (assignIf_scan toLongNumber toks _ (tok + 4) _ _ _)
    as [|s|p errs] eqn:Es; cbn [scan_errors]; try (intros []).
  apply assignIf_scan_match_inv in Es as (Hq & Hstop & Hmatch & ->).
  intros Hin. apply assignIf_compare_inv in Hin as [Hmis Hop].
  assert (Hlt : tok + 4 < p).
  { pose proof (Match_if_comparison _ _ _ Hmatch) as (Hif & _).
    destruct (Nat.eq_dec p (tok + 4)) as [->|Hne]; [|lia].
    rewrite Hif in Hsemi. discriminate. }
  exists p. cbv zeta. repeat split; assumption.
Qed.

End AssignIfConverse.

(** X3. What a finding of [assignIf] certifies: it is anchored at an
    [if] whose comparison, with [==] (reported always false) or [!=]
    (reported always true), follows a masked assignment to a resolved
    variable of the same identity with a non-negative mask, no stop token
    lying in between; and no value of the masked operand makes the
    assigned value equal to the constant compared with. *)
Theorem assignIf_findings_justified (toLongNumber : string -> Z)
        (toks : list Token) (settings : Settings) :
  Forall
    (fun f => exists tok p,
       let varid := varIdOf toks (previous (Some tok)) in
       let m := toLongNumber (strAt toks (Some tok) 3) in
       let t := toLongNumber (strAt toks (Some p) 4) in
       isEnabled settings "style" = true
       /\ strOf toks (Some tok) = "="
       /\ Token.Match toks (tokAt toks (Some tok) (-2))
            "[;{}] %var% = %var% [&|] %num% ;" 0 = true
       /\ varid <> 0 /\ (0 <= m)%Z
       /\ tok + 4 < p
       /\ (forall r, tok + 4 <= r < p ->
             stop_token (strOf toks (Some r)) = false)
       /\ Token.Match toks (Some p)
            "if ( %varid% %any% %num% &&|%oror%|)" varid = true
       /\ ((strAt toks (Some p) 3 = "==" /\ f = assignIfError (Some p) false)
           \/ (strAt toks (Some p) 3 = "!="
               /\ f = assignIfError (Some p) true))
       /\ ((strAt toks (Some tok) 2 = "&" /\ forall y, Z.land y m <> t)
           \/ (strAt toks (Some tok) 2 = "|" /\ forall y, Z.lor y m <> t)))
    (assignIf toLongNumber toks settings).
Proof.
  apply Forall_forall. intros f Hin. unfold assignIf in Hin.
  destruct (isEnabled settings "style") eqn:Hen; cbn [negb] in Hin;
    [|destruct Hin].
  apply in_flat_map in Hin as (tok & _ & Hin).
  apply assignIf_at_inv in Hin
    as (p & Heq & Ha & Hv & Hm & Hp & Hstop & Hmatch & Hop & Hmis).
  pose proof (Match_assignment_shape toks tok Ha)
    as (_ & _ & _ & Hbit & _).
  exists tok, p. cbv zeta. repeat split; try assumption.
  destruct Hbit as [E|E]; rewrite E in Hmis; cbn [at0] in Hmis.
  - left. split; [exact E|]. now apply assign_mismatch_bits_and.
  - right. split; [exact E|]. now apply assign_mismatch_bits_or.
Qed.

(** X4. Direct-assignment analysis, OR combinator: for a statement
    [var = var2 | m ;] whose variable has a nonzero identity and whose
    mask [m] is non-negative, when the first comparison
    [if ( var CMP t <end>] is reached before any stop token, the
    analysis reports "always false" for [==] and "always true" for [!=]
    exactly when [(m & t) != m], and nothing when [(m & t) == m]. *)
Theorem assignIf_or_rule (toLongNumber : string -> Z) (toks : list Token)
        (tok p : nat) :
  let varid := varIdOf toks (previous (Some tok)) in
  let m := toLongNumber (strAt toks (Some tok) 3) in
  let t := toLongNumber (strAt toks (Some p) 4) in
  strOf toks (Some tok) = "=" ->
  Token.Match toks (tokAt toks (Some tok) (-2))
    "[;{}] %var% = %var% [&|] %num% ;" 0 = true ->
  varid <> 0 ->
  strAt toks (Some tok) 2 = "|" ->
  (0 <= m)%Z ->
  tok + 4 <= p ->
  (forall r, tok + 4 <= r < p -> stop_token (strOf toks (Some r)) = false) ->
  Token.Match toks (Some p) "if ( %varid% %any% %num% &&|%oror%|)" varid
  = true ->
  (strAt toks (Some p) 3 = "==" ->
   assignIf_at toLongNumber toks tok
   = if negb (Z.land m t =? m)%Z then [assignIfError (Some p) false] else [])
  /\ (strAt toks (Some p) 3 = "!=" ->
      assignIf_at toLongNumber toks tok
      = if negb (Z.land m t =? m)%Z then [assignIfError (Some p) true] else []).
Proof.
  intros varid m t Heq Hassign Hvar Hop Hm Hp Hstop Hmatch.
  assert (Hat : assignIf_at toLongNumber toks tok
                = assignIf_compare toLongNumber toks (Some p) "|" m).
  { unfold assignIf_at. rewrite Heq, Hassign. cbn [String.eqb Ascii.eqb negb].
    fold varid. destruct (Nat.eqb_spec varid 0) as [E|_]; [contradiction|].
    fold m. destruct (Z.ltb_spec m 0) as [E|_]; [lia|].
    rewrite Hop. cbn [at0].
    pose proof (Match_if_comparison _ _ _ Hmatch) as (_ & _ & _ & Hlen).
    change 4%Z with (Z.of_nat 4). rewrite tokAt_forward by lia.
    rewrite (assignIf_scan_reaches toLongNumber toks (tok + 4) p varid "|" m
               Hp Hstop Hmatch).
    reflexivity. }
  rewrite Hat. unfold assignIf_compare, assign_mismatch. fold t.
  cbn [Ascii.eqb Bool.eqb].
  split; intros ->; cbn [String.eqb Ascii.eqb Bool.eqb andb];
    destruct (negb (Z.land m t =? m)%Z); reflexivity.
Qed.

Lemma assignIf_or_rule_witness :
  assignIf_at decodeLiteral ex_or_eq 2 = [assignIfError (Some 7) false].
Proof.
  assert (Hstop : forall r, 2 + 4 <= r < 7 ->
                    stop_token (strOf ex_or_eq (Some r)) = false).
  { intros r Hr. assert (r = 6) by lia. subst r. reflexivity. }
  destruct (assignIf_or_rule decodeLiteral ex_or_eq 2 7
              eq_refl eq_refl ltac:(vm_compute; lia) eq_refl
              ltac:(vm_compute; discriminate) ltac:(lia) Hstop eq_refl)
    as [H _].
  exact (H eq_refl).
Defined.

Lemma forallb_nth_error (A : Type) (g : A -> bool) (l : list A) (i : nat)
      (a : A) :
  forallb g l = true -> nth_error l i = Some a -> g a = true.
Proof.
  intros H Hi. rewrite forallb_forall in H. apply H.
  now apply nth_error_In with i.
Qed.

(** X5. Findings keep the order of the assignments and no comparison is
    reported twice: when a token spelled [=] is never a name or a
    number, a finding of a masked assignment is anchored before the
    [=] of any later masked assignment that has a finding, and the
    finding of the later one after it. *)
Theorem assignIf_findings_in_order (toLongNumber : string -> Z)
        (toks : list Token) (tok1 tok2 : nat) (f1 f2 : Finding) :
  assignments_lexed toks = true ->
  tok1 < tok2 ->
  In f1 (assignIf_at toLongNumber toks tok1) ->
  In f2 (assignIf_at toLongNumber toks tok2) ->
  exists p1 p2,
    anchor f1 = Some p1 /\ anchor f2 = Some p2 /\ p1 < tok2 /\ tok2 < p2.
Proof.
  intros Hlex Hlt H1 H2.
  apply assignIf_at_inv in H1
    as (p1 & _ & Ha1 & _ & _ & Hp1 & Hstop1 & Hm1 & Hop1 & _).
  apply assignIf_at_inv in H2
    as (p2 & Heq2 & _ & _ & _ & Hp2 & _ & _ & Hop2 & _).
  exists p1, p2.
  assert (A1 : anchor f1 = Some p1)
    by (destruct Hop1 as [ [_ ->] | [_ ->] ]; reflexivity).
  assert (A2 : anchor f2 = Some p2)
    by (destruct Hop2 as [ [_ ->] | [_ ->] ]; reflexivity).
  repeat split; try assumption; [|lia].
  pose proof (Match_assignment_shape toks tok1 Ha1)
    as (_ & _ & (t1 & Ht1 & Hn1) & Hbit & (t3 & Ht3 & Hn3) & _).
  pose proof (Match_if_comparison _ _ _ Hm1) as (Hif & _).
  assert (Hs2 : stop_token (strOf toks (Some tok2)) = true)
    by now rewrite Heq2.
  destruct (Nat.lt_ge_cases tok2 (tok1 + 4)) as [Hnear|Hfar].
  - exfalso.
    assert (E : tok2 = tok1 + 1 \/ tok2 = tok1 + 2 \/ tok2 = tok1 + 3) by lia.
    destruct E as [ -> | [ -> | -> ] ].
    + rewrite (strOf_token _ _ _ Ht1) in Heq2.
      pose proof (forallb_nth_error _ _ _ _ _ Hlex Ht1) as Hl.
      cbv beta in Hl. rewrite Heq2, Hn1 in Hl. discriminate.
    + change 2%Z with (Z.of_nat 2) in Hbit.
      rewrite strAt_forward_total, Heq2 in Hbit.
      destruct Hbit; discriminate.
    + rewrite (strOf_token _ _ _ Ht3) in Heq2.
      pose proof (forallb_nth_error _ _ _ _ _ Hlex Ht3) as Hl.
      cbv beta in Hl. rewrite Heq2, Hn3 in Hl.
      rewrite andb_false_r in Hl. discriminate.
  - destruct (Nat.lt_trichotomy p1 tok2) as [Hok | [ -> | Hbad ] ];
      [exact Hok| |].
    + rewrite Hif in Heq2. discriminate.
    + rewrite (Hstop1 tok2) in Hs2 by lia. discriminate.
Qed.

Lemma assignIf_findings_in_order_witness :
  exists p1 p2,
    anchor (assignIfError (Some 7) false) = Some p1
    /\ anchor (assignIfError (Some 21) false) = Some p2
    /\ p1 < 16 /\ 16 < p2.
Proof.
  apply (assignIf_findings_in_order decodeLiteral ex_two_assignments 2 16).
  - reflexivity.
  - lia.
  - vm_compute. left. reflexivity.
  - vm_compute. left. reflexivity.
Defined.

(* ================================================================== *)
(** ** The inline-expression analysis: findings and faults             *)
(* ================================================================== *)

Section ComparisonConverse.

Variable toLongNumber : string -> Z.
Variable toks : list Token.

Lemma match_elems_unfold_optional (i : nat) (alts : list string)
      (pat : list PatElem) (v : nat) :
  match_elems toks (Some i) (PMulti alts true :: pat) v
  = match nth_error toks i with
    | Some t => if existsb (String.eqb (str t)) alts
                then match_elems toks (Some (S i)) pat v
                else match_elems toks (Some i) pat v
    | None => false
    end.
Proof.
  cbn [match_elems elem_match has_empty_alternative].
  now rewrite match_elems_at_next.
Qed.

Lemma in_two (s a b : string) :
  existsb (String.eqb s) [a; b] = true -> s = a \/ s = b.
Proof.
  cbn [existsb]. rewrite orb_false_r. intros H.
  apply orb_true_iff in H as [H|H]; apply String.eqb_eq in H; auto.
Qed.

(** What a match of the inline pattern says about the tokens from [tok]
    on: the closing parenthesis is there or not. *)
Lemma Match_inline_shape (tok : nat) :
  Token.Match toks (Some tok) "&|%or% %num% )| ==|!= %num% &&|%oror%|)" 0
  = true ->
  (strOf toks (Some tok) = "&" \/ strOf toks (Some tok) = "|")
  /\ ((strOf toks (Some (tok + 2)) = ")"
       /\ (strOf toks (Some (tok + 3)) = "=="
           \/ strOf toks (Some (tok + 3)) = "!=")
       /\ tok + 5 < List.length toks)
      \/ (strOf toks (Some (tok + 2)) <> ")"
          /\ (strOf toks (Some (tok + 2)) = "=="
              \/ strOf toks (Some (tok + 2)) = "!=")
          /\ tok + 4 < List.length toks)).
Proof.
  unfold Token.Match. rewrite pattern_inline.
  rewrite !match_elems_unfold by reflexivity.
  rewrite match_elems_unfold_optional.
  rewrite !match_elems_unfold by reflexivity.
  cbn [elem_match match_elems]. unfold strOf, tokenAt.
  replace (tok + 2) with (S (S tok)) by lia.
  replace (tok + 3) with (S (S (S tok))) by lia.
  destruct (nth_error toks tok) as [t0|]; [|discriminate].
  intros H. apply andb_true_iff in H as [M0 H]. apply in_two in M0.
  split; [exact M0|].
  destruct (nth_error toks (S tok)) as [t1|]; [|discriminate].
  apply andb_true_iff in H as [_ H].
  destruct (nth_error toks (S (S tok))) as [t2|]; [|discriminate].
  cbn [existsb] in H. rewrite orb_false_r in H.
  destruct (String.eqb_spec (str t2) ")") as [E2|N2].
  - left. split; [exact E2|].
    destruct (nth_error toks (S (S (S tok)))) as [t3|]; [|discriminate].
    apply andb_true_iff in H as [M3 H]. apply in_two in M3.
    split; [exact M3|].
    destruct (nth_error toks (S (S (S (S tok))))) as [t4|]; [|discriminate].
    apply andb_true_iff in H as [_ H].
    destruct (nth_error toks (S (S (S (S (S tok)))))) as [t5|] eqn:H5;
      [|discriminate].
    assert (S (S (S (S (S tok)))) < List.length toks)
      by (apply nth_error_Some; congruence). lia.
  - right. split; [exact N2|].
    apply andb_true_iff in H as [M2 H]. apply in_two in M2.
    split; [exact M2|].
    destruct (nth_error toks (S (S (S tok)))) as [t3|]; [|discriminate].
    apply andb_true_iff in H as [_ H].
    destruct (nth_error toks (S (S (S (S tok))))) as [t4|] eqn:H4;
      [|discriminate].
    assert (S (S (S (S tok))) < List.length toks)
      by (apply nth_error_Some; congruence). lia.
Qed.

Lemma comparison_mismatch_bits (bitop : string) (num1 num2 : Z) :
  comparison_mismatch bitop num1 num2 = true ->
  (bitop = "&" /\ forall X, Z.land X num1 <> num2)
  \/ (bitop = "|" /\ forall X, Z.lor X num1 <> num2).
Proof.
  unfold comparison_mismatch. intros H.
  apply orb_true_iff in H as [H|H]; apply andb_true_iff in H as [Hb H];
    apply String.eqb_eq in Hb; [left|right]; (split; [exact Hb|]);
    intros X E.
  - apply land_result_is_submask in E. rewrite E, Z.eqb_refl in H.
    discriminate.
  - assert (E' : Z.lor num1 num2 = num2).
    { rewrite <- E at 1. rewrite (Z.lor_comm X num1), Z.lor_assoc, Z.lor_diag.
      now rewrite Z.lor_comm. }
    rewrite E', Z.eqb_refl in H. discriminate.
Qed.

Lemma comparison_check_inv (tok compareToken : cursor) (num1 : Z)
      (f : Finding) :
  comparison_check toLongNumber toks tok compareToken num1 = Reported f ->
  let num2 := toLongNumber (strAt toks compareToken 1) in
  (0 <= num2)%Z
  /\ comparison_mismatch (strOf toks tok) num1 num2 = true
  /\ f = comparisonError tok (strOf toks tok) num1 (strOf toks compareToken)
           num2
           (if String.eqb (strOf toks compareToken) "==" then false else true).
Proof.
  unfold comparison_check. cbv zeta.
  destruct (Z.ltb_spec (toLongNumber (strAt toks compareToken 1)) 0)
    as [|Hpos]; [discriminate|].
  destruct (comparison_mismatch _ _ _); [|discriminate].
  intros H. inversion H. repeat split. exact Hpos.
Qed.

Lemma comparison_check_no_fault (tok compareToken : cursor) (num1 : Z) :
  comparison_check toLongNumber toks tok compareToken num1 <> NullDeref.
Proof.
  unfold comparison_check.
  destruct (_ <? 0)%Z; [discriminate|].
  destruct (comparison_mismatch _ _ _); discriminate.
Qed.

(** Every finding of the candidate at [tok] comes with the reasons the
    source has checked. *)
Lemma comparison_at_inv (tok : nat) (f : Finding) :
  comparison_at toLongNumber toks tok = Reported f ->
  exists cmp,
    let bitop := strOf toks (Some tok) in
    let num1 := toLongNumber (strAt toks (Some tok) 1) in
    let op := strOf toks (Some cmp) in
    let num2 := toLongNumber (strOf toks (Some (cmp + 1))) in
    Token.Match toks (Some tok) "&|%or% %num% )| ==|!= %num% &&|%oror%|)" 0
    = true
    /\ (0 <= num1)%Z /\ (0 <= num2)%Z
    /\ (op = "==" \/ op = "!=")
    /\ ((cmp = tok + 2 /\ strOf toks (Some (tok + 2)) <> ")")
        \/ (cmp = tok + 3 /\ strOf toks (Some (tok + 2)) = ")"
            /\ exists l, linkOf toks (Some (tok + 2)) = Some l
                         /\ In (strOf toks (previous (Some l)))
                              ["("; "||"; "&&"]))
    /\ f = comparisonError (Some tok) bitop num1 op num2
             (if String.eqb op "==" then false else true)
    /\ comparison_mismatch bitop num1 num2 = true.
Proof.
  unfold comparison_at.
  destruct (Token.Match toks (Some tok) _ 0) eqn:Em; [|discriminate].
  pose proof (Match_inline_shape tok Em) as (_ & Hshape).
  set (num1 := toLongNumber (strAt toks (Some tok) 1)).
  destruct (Z.ltb_spec num1 0) as [|Hpos]; [discriminate|].
  assert (Hlen : tok + 4 < List.length toks)
    by (destruct Hshape as [(_ & _ & ?)|(_ & _ & ?)]; lia).
  change 2%Z with (Z.of_nat 2). rewrite tokAt_forward by lia.
  destruct Hshape as [(Hparen & Hop & Hlen')|(Hnoparen & Hop & _)].
  - destruct (String.eqb_spec (strOf toks (Some (tok + 2))) ")")
      as [_|]; [|contradiction].
    destruct (linkOf toks (Some (tok + 2))) as [l|] eqn:El; [|discriminate].
    destruct (Token.Match toks (previous (Some l)) "(|%oror%|&&" 0) eqn:Ep;
      cbn [negb]; [|discriminate].
    apply Match_before_open in Ep.
    rewrite next_in_range by lia.
    replace (S (tok + 2)) with (tok + 3) by lia.
    intros H. apply comparison_check_inv in H as (Hn2 & Hmis & ->).
    assert (E1 : strAt toks (Some (tok + 3)) 1
                 = strOf toks (Some (tok + 3 + 1)))
      by (change 1%Z with (Z.of_nat 1); apply strAt_forward_total).
    rewrite E1 in *. subst num1.
    exists (tok + 3). cbv zeta. repeat split; try assumption.
    right. split; [reflexivity|]. split; [exact Hparen|]. now exists l.
  - destruct (String.eqb_spec (strOf toks (Some (tok + 2))) ")")
      as [|_]; [contradiction|].
    intros H. apply comparison_check_inv in H as (Hn2 & Hmis & ->).
    assert (E1 : strAt toks (Some (tok + 2)) 1
                 = strOf toks (Some (tok + 2 + 1)))
      by (change 1%Z with (Z.of_nat 1); apply strAt_forward_total).
    rewrite E1 in *. subst num1.
    exists (tok + 2). cbv zeta. repeat split; try assumption.
    left. now split.
Qed.

(** A candidate faults exactly when it matches with a non-negative mask
    and its closing parenthesis has no link. *)
Lemma comparison_at_fault_iff (tok : nat) :
  comparison_at toLongNumber toks tok = NullDeref
  <-> Token.Match toks (Some tok) "&|%or% %num% )| ==|!= %num% &&|%oror%|)" 0
      = true
      /\ (0 <= toLongNumber (strAt toks (Some tok) 1))%Z
      /\ strOf toks (Some (tok + 2)) = ")"
      /\ linkOf toks (Some (tok + 2)) = None.
Proof.
  unfold comparison_at.
  destruct (Token.Match toks (Some tok) _ 0) eqn:Em.
  2: { split; [discriminate|]. intros (H & _). discriminate. }
  pose proof (Match_inline_shape tok Em) as (_ & Hshape).
  assert (Hlen : tok + 4 < List.length toks)
    by (destruct Hshape as [(_ & _ & ?)|(_ & _ & ?)]; lia).
  change 2%Z with (Z.of_nat 2). rewrite tokAt_forward by lia.
  destruct (Z.ltb_spec (toLongNumber (strAt toks (Some tok) 1)) 0)
    as [Hneg|Hpos].
  1: { split; [discriminate|]. intros (_ & H & _). lia. }
  destruct (String.eqb_spec (strOf toks (Some (tok + 2))) ")") as [Ep|Np].
  - destruct (linkOf toks (Some (tok + 2))) as [l|].
    + split.
      * destruct (negb _); [discriminate|].
        intros H. now apply comparison_check_no_fault in H.
      * intros (_ & _ & _ & H). discriminate.
    + split; [intros _; repeat split; assumption|reflexivity].
  - split.
    + intros H. now apply comparison_check_no_fault in H.
    + intros (_ & _ & H & _). contradiction.
Qed.

Lemma comparison_loop_findings (positions : list nat) (f : Finding) :
  In f (fst (comparison_loop toLongNumber toks positions)) ->
  exists tok, In tok positions
              /\ comparison_at toLongNumber toks tok = Reported f.
Proof.
  induction positions as [|tok rest IH]; [intros []|].
  cbn [comparison_loop].
  destruct (comparison_at toLongNumber toks tok) as [|g|] eqn:E.
  - intros H. apply IH in H as (k & Hk & Ek). exists k. split; [now right|].
    exact Ek.
  - destruct (comparison_loop toLongNumber toks rest) as [fs ok].
    cbn [fst] in *. intros [<-|H].
    + exists tok. split; [now left|exact E].
    + apply IH in H as (k & Hk & Ek). exists k. split; [now right|exact Ek].
  - intros [].
Qed.

Lemma comparison_loop_status (positions : list nat) :
  snd (comparison_loop toLongNumber toks positions) = false
  <-> exists tok, In tok positions
                  /\ comparison_at toLongNumber toks tok = NullDeref.
Proof.
  induction positions as [|tok rest IH]; cbn [comparison_loop].
  - split; [discriminate|]. intros (k & [] & _).
  - destruct (comparison_at toLongNumber toks tok) as [|g|] eqn:E.
    + rewrite IH. split; intros (k & Hk & Ek).
      * exists k. split; [now right|exact Ek].
      * destruct Hk as [<-|Hk]; [congruence|]. now exists k.
    + destruct (comparison_loop toLongNumber toks rest) as [fs ok].
      cbn [snd] in *. rewrite IH. split; intros (k & Hk & Ek).
      * exists k. split; [now right|exact Ek].
      * destruct Hk as [<-|Hk]; [congruence|]. now exists k.
    + split; [|reflexivity]. intros _. exists tok. split; [now left|exact E].
Qed.

End ComparisonConverse.

(** X6. What a finding of [comparison] certifies: it is anchored at an
    [&] or [|] token followed by a non-negative mask, an optional
    closing parenthesis whose open bracket follows [(], [||] or [&&],
    an [==] (reported always false) or [!=] (reported always true) and
    a non-negative constant, it carries these operands, and no value of
    the masked operand makes the masked expression equal to the
    constant. *)
Theorem comparison_findings_justified (toLongNumber : string -> Z)
        (toks : list Token) (settings : Settings) :
  Forall
    (fun f => exists tok cmp,
       let bitop := strOf toks (Some tok) in
       let num1 := toLongNumber (strAt toks (Some tok) 1) in
       let op := strOf toks (Some cmp) in
       let num2 := toLongNumber (strOf toks (Some (cmp + 1))) in
       isEnabled settings "style" = true
       /\ Token.Match toks (Some tok)
            "&|%or% %num% )| ==|!= %num% &&|%oror%|)" 0 = true
       /\ (0 <= num1)%Z /\ (0 <= num2)%Z
       /\ (op = "==" \/ op = "!=")
       /\ ((cmp = tok + 2 /\ strOf toks (Some (tok + 2)) <> ")")
           \/ (cmp = tok + 3 /\ strOf toks (Some (tok + 2)) = ")"
               /\ exists l, linkOf toks (Some (tok + 2)) = Some l
                            /\ In (strOf toks (previous (Some l)))
                                 ["("; "||"; "&&"]))
       /\ f = comparisonError (Some tok) bitop num1 op num2
                (if String.eqb op "==" then false else true)
       /\ ((bitop = "&" /\ forall X, Z.land X num1 <> num2)
           \/ (bitop = "|" /\ forall X, Z.lor X num1 <> num2)))
    (fst (comparison toLongNumber toks settings)).
Proof.
  apply Forall_forall. intros f Hin. unfold comparison in Hin.
  destruct (isEnabled settings "style") eqn:Hen; cbn [negb] in Hin;
    [|destruct Hin].
  apply comparison_loop_findings in Hin as (tok & _ & Hat).
  apply comparison_at_inv in Hat
    as (cmp & Hm & Hn1 & Hn2 & Hop & Hcmp & Hf & Hmis).
  exists tok, cmp. cbv zeta. repeat split; try assumption.
  now apply comparison_mismatch_bits.
Qed.

(** X7. The fault of [comparison]: the source follows the link of the
    closing parenthesis without a test, so a run is cut short exactly
    when some candidate matches with a non-negative mask and a closing
    parenthesis that has no link. *)
Theorem comparison_fault_iff (toLongNumber : string -> Z)
        (toks : list Token) (settings : Settings) :
  isEnabled settings "style" = true ->
  (snd (comparison toLongNumber toks settings) = false
   <-> exists tok,
         Token.Match toks (Some tok)
           "&|%or% %num% )| ==|!= %num% &&|%oror%|)" 0 = true
         /\ (0 <= toLongNumber (strAt toks (Some tok) 1))%Z
         /\ strOf toks (Some (tok + 2)) = ")"
         /\ linkOf toks (Some (tok + 2)) = None).
Proof.
  intros Hen. unfold comparison. rewrite Hen. cbn [negb].
  rewrite comparison_loop_status. split.
  - intros (tok & _ & H). exists tok. now apply comparison_at_fault_iff.
  - intros (tok & H). exists tok. split.
    + apply in_seq. destruct H as (Hm & _). apply Match_inline in Hm. lia.
    + now apply comparison_at_fault_iff.
Qed.

Lemma comparison_fault_iff_witness :
  snd (comparison decodeLiteral ex_unlinked_paren style) = false.
Proof.
  apply (comparison_fault_iff decodeLiteral ex_unlinked_paren style eq_refl).
  exists 1. repeat split. vm_compute. discriminate.
Defined.

(** X8. On a token list where every closing parenthesis has a link,
    [comparison] runs to completion. *)
Theorem comparison_completes (toLongNumber : string -> Z)
        (toks : list Token) (settings : Settings) :
  closing_parens_linked toks = true ->
  snd (comparison toLongNumber toks settings) = true.
Proof.
  intros Hlinked. unfold comparison.
  destruct (negb (isEnabled settings "style")); [reflexivity|].
  destruct (snd (comparison_loop toLongNumber toks
                   (seq 0 (List.length toks)))) eqn:E; [reflexivity|].
  apply comparison_loop_status in E as (tok & _ & H).
  apply comparison_at_fault_iff in H as (_ & _ & Hparen & Hnull).
  unfold strOf, linkOf, tokenAt in Hparen, Hnull.
  destruct (nth_error toks (tok + 2)) as [t|] eqn:Ht; [|discriminate].
  pose proof (forallb_nth_error _ _ _ _ _ Hlinked Ht) as Hl.
  cbv beta in Hl. rewrite Hparen, Hnull in Hl. discriminate.
Qed.

Lemma comparison_completes_witness :
  snd (comparison decodeLiteral ex_inline style) = true.
Proof.
  apply (comparison_completes decodeLiteral ex_inline style). reflexivity.
Defined.

(* ================================================================== *)
(** ** The else-if chain analysis: findings, links and edge cases      *)
(* ================================================================== *)

Section ChainConverse.

Variable toLongNumber : string -> Z.
Variable toks : list Token.

Lemma simpleMatch_null (pattern : string) (w : string) (ws : list string) :
  filter nonempty (split_on " " pattern) = w :: ws ->
  Token.simpleMatch toks None pattern = false.
Proof. unfold Token.simpleMatch. now intros ->. Qed.

Lemma multiCondition_chain_null (fuel : nat) (tok : cursor) (varid : nat)
      (num1 : Z) :
  multiCondition_chain toLongNumber toks fuel tok varid num1 None
  = ([], true).
Proof.
  destruct fuel; cbn [multiCondition_chain];
    now rewrite (simpleMatch_null _ _ _ words_else_if).
Qed.

Lemma chain_links_null (fuel : nat) : chain_links toks fuel None = [].
Proof.
  destruct fuel; cbn [chain_links];
    now rewrite (simpleMatch_null _ _ _ words_else_if).
Qed.

(** What a finding of one link says about the link. *)
Lemma link_findings_inv (tok : cursor) (varid : nat) (num1 : Z)
      (opar : cursor) (f : Finding) :
  In f (link_findings toLongNumber toks tok varid num1 opar) ->
  exists j,
    let mask2 := toLongNumber (strOf toks (Some (j + 3))) in
    opar = Some j
    /\ f = multiConditionError (Some j) (linenrOf toks tok)
    /\ Token.Match toks (Some j) "( %varid% ==|& %num% &&|%oror%|)" varid
       = true
    /\ (0 <= mask2)%Z
    /\ Z.land num1 mask2 = mask2.
Proof.
  unfold link_findings.
  destruct opar as [j|]; [|intros []].
  rewrite link_qualifies_Match.
  destruct (Token.Match toks (Some j) _ varid) eqn:Em; [|intros []].
  change 3%Z with (Z.of_nat 3). rewrite strAt_forward_total.
  destruct (Z.leb_spec 0 (toLongNumber (strOf toks (Some (j + 3)))))
    as [Hpos|]; [|intros []].
  unfold isSubsetMask. cbn [andb].
  destruct (Z.eqb_spec
              (Z.land (toLongNumber (strOf toks (Some (j + 3)))) num1)
              (toLongNumber (strOf toks (Some (j + 3))))) as [E|];
    [|intros []].
  intros [<-|[]]. exists j. cbv zeta. repeat split; try assumption.
  now rewrite Z.land_comm.
Qed.

Lemma multiCondition_scope_inv (fuel : nat) (i : Scope) (f : Finding) :
  In f (fst (multiCondition_scope toLongNumber toks fuel i)) ->
  let tok := classDef i in
  let varid := varIdOf toks (tokAt toks tok 2) in
  let mask1 := toLongNumber (strAt toks tok 4) in
  type i = eIf
  /\ Token.Match toks tok "if ( %var% & %num% ) {" 0 = true
  /\ varid <> 0 /\ (0 <= mask1)%Z
  /\ exists opar,
       In opar (chain_links toks fuel (linkAt toks tok 6))
       /\ In f (link_findings toLongNumber toks tok varid mask1 opar).
Proof.
  unfold multiCondition_scope. cbv zeta.
  destruct (is_eIf (type i)) eqn:Ht; cbn [andb]; [|intros []].
  destruct (Token.Match toks (classDef i) _ 0) eqn:Em; [|intros []].
  destruct (Nat.eqb_spec (varIdOf toks (tokAt toks (classDef i) 2)) 0)
    as [|Hv]; [intros []|].
  destruct (Z.ltb_spec (toLongNumber (strAt toks (classDef i) 4)) 0)
    as [|Hm]; [intros []|].
  rewrite multiCondition_chain_flat_map. intros Hin.
  apply in_flat_map in Hin.
  repeat split; try assumption.
  now destruct (type i).
Qed.

Lemma multiCondition_scopes_findings (fuel : nat) (scopes : list Scope)
      (f : Finding) :
  In f (fst (multiCondition_scopes toLongNumber toks fuel scopes)) ->
  exists i, In i scopes
            /\ In f (fst (multiCondition_scope toLongNumber toks fuel i)).
Proof.
  induction scopes as [|i rest IH]; [intros []|].
  cbn [multiCondition_scopes].
  destruct (multiCondition_scope toLongNumber toks fuel i) as [fs done]
    eqn:Ei.
  assert (Hfs : forall g, In g fs ->
                  exists k, In k (i :: rest)
                    /\ In g (fst (multiCondition_scope toLongNumber toks
                                    fuel k))).
  { intros g Hg. exists i. split; [now left|]. now rewrite Ei. }
  destruct done; [|apply Hfs].
  destruct (multiCondition_scopes toLongNumber toks fuel rest)
    as [fs' done'].
  cbn [fst] in *. intros Hin. apply in_app_or in Hin as [Hin|Hin]; auto.
  apply IH in Hin as (k & Hk & Hf). exists k. split; [now right|exact Hf].
Qed.

(** Past the links of a chain that starts at [i], every link lies at
    least four tokens further. *)
Lemma chain_links_lower_bound (fuel : nat) :
  well_formed_links toks = true ->
  forall i c, In c (chain_links toks fuel (Some i)) ->
              exists j, c = Some j /\ i + 4 <= j.
Proof.
  intros Hwf. induction fuel as [|fuel IH]; intros i c;
    cbn [chain_links];
    destruct (Token.simpleMatch toks (Some i) "} else { if (") eqn:Em;
    try (intros Hnil; now destruct Hnil).
  pose proof (chain_step_advances toks Hwf (Some i) i eq_refl Em)
    as [_ Hadv].
  pose proof (simpleMatch_else_if _ _ Em) as (i' & t & Ei & Hopar & _).
  inversion Ei; subst i'. cbv zeta in Hadv.
  intros [<-|Hin].
  - exists (i + 4). split; [exact Hopar|lia].
  - match type of Hin with
    | In _ (chain_links _ _ ?c2) => destruct c2 as [k|]
    end.
    + apply IH in Hin as (j & -> & Hj). exists j. split; [reflexivity|lia].
    + rewrite chain_links_null in Hin. destruct Hin.
Qed.

Lemma chain_links_NoDup (fuel : nat) :
  well_formed_links toks = true ->
  forall tok2, NoDup (chain_links toks fuel tok2).
Proof.
  intros Hwf. induction fuel as [|fuel IH]; intros tok2;
    cbn [chain_links];
    destruct (Token.simpleMatch toks tok2 "} else { if (") eqn:Em;
    try constructor; [|apply IH].
  pose proof (simpleMatch_else_if _ _ Em) as (i & t & -> & Hopar & _).
  pose proof (chain_step_advances toks Hwf (Some i) i eq_refl Em)
    as [_ Hadv].
  cbv zeta in Hadv. rewrite Hopar in Hadv |- *. intros Hin.
  match type of Hin with
  | In _ (chain_links _ _ ?c2) => destruct c2 as [k|]
  end.
  - apply chain_links_lower_bound in Hin as (j & Ej & Hj); [|exact Hwf].
    inversion Ej. lia.
  - rewrite chain_links_null in Hin. destruct Hin.
Qed.

Lemma link_findings_anchor (tok : cursor) (varid : nat) (num1 : Z)
      (opar : cursor) (f : Finding) :
  In f (link_findings toLongNumber toks tok varid num1 opar) ->
  f = multiConditionError opar (linenrOf toks tok).
Proof.
  unfold link_findings. destruct (_ && _)%bool; [|intros []].
  now intros [<-|[]].
Qed.

Lemma link_findings_NoDup (tok : cursor) (varid : nat) (num1 : Z)
      (links : list cursor) :
  NoDup links ->
  NoDup (flat_map (link_findings toLongNumber toks tok varid num1) links).
Proof.
  induction 1 as [|a rest Hnotin Hnd IH]; cbn [flat_map]; [constructor|].
  unfold link_findings at 1.
  destruct (_ && _)%bool; [|exact IH].
  cbn [app]. constructor; [|exact IH].
  intros Hin. apply in_flat_map in Hin as (b & Hb & Hf).
  apply link_findings_anchor in Hf. inversion Hf. congruence.
Qed.

End ChainConverse.

(** X9. What a finding of [multiCondition] certifies: it belongs to an
    if-scope whose condition is [if ( var & mask1 ) {] with a resolved
    variable and a non-negative [mask1]; it is anchored at the open
    parenthesis of an else-if link of that chain whose condition reads
    [( var CMP2 mask2 <end>] on the same variable with a non-negative
    [mask2]; it cites the line of the first [if]; and
    [(mask1 & mask2) == mask2], so that any value with no bit of
    [mask1] has no bit of [mask2] and, unless [mask2] is zero, differs
    from [mask2]. *)
Theorem multiCondition_findings_justified (toLongNumber : string -> Z)
        (toks : list Token) (fuel : nat) (settings : Settings)
        (scopeList : list Scope) :
  Forall
    (fun f => exists i j,
       let tok := classDef i in
       let varid := varIdOf toks (tokAt toks tok 2) in
       let mask1 := toLongNumber (strAt toks tok 4) in
       let mask2 := toLongNumber (strOf toks (Some (j + 3))) in
       isEnabled settings "style" = true
       /\ In i scopeList /\ type i = eIf
       /\ Token.Match toks tok "if ( %var% & %num% ) {" 0 = true
       /\ varid <> 0 /\ (0 <= mask1)%Z
       /\ In (Some j) (chain_links toks fuel (linkAt toks tok 6))
       /\ Token.Match toks (Some j) "( %varid% ==|& %num% &&|%oror%|)" varid
          = true
       /\ (0 <= mask2)%Z
       /\ f = multiConditionError (Some j) (linenrOf toks tok)
       /\ Z.land mask1 mask2 = mask2
       /\ (forall x, Z.land x mask1 = 0%Z ->
             Z.land x mask2 = 0%Z /\ (mask2 <> 0%Z -> x <> mask2)))
    (fst (multiCondition toLongNumber toks fuel settings scopeList)).
Proof.
  apply Forall_forall. intros f Hin. unfold multiCondition in Hin.
  destruct (isEnabled settings "style") eqn:Hen; cbn [negb] in Hin;
    [|destruct Hin].
  apply multiCondition_scopes_findings in Hin as (i & Hi & Hin).
  apply multiCondition_scope_inv in Hin
    as (Ht & Hm & Hv & Hm1 & opar & Hlink & Hf).
  apply link_findings_inv in Hf as (j & -> & -> & Hmj & Hm2 & Hsub).
  exists i, j. cbv zeta.
  repeat (split; [first [assumption|reflexivity]|]).
  intros x Hx. split.
  - rewrite <- Hsub, Z.land_assoc, Hx. apply Z.land_0_l.
  - intros Hnz ->. apply Hnz.
    rewrite <- Hsub. rewrite Z.land_comm. exact Hx.
Qed.

(** X10. A link that compares with zero is always reported: for every
    first mask, a link [( var == 0 <end>] or [( var & 0 <end>] on the
    variable of the chain yields a finding, although the value zero has
    no bit of the first mask and is equal to zero. *)
Theorem multiCondition_reports_zero_link (toLongNumber : string -> Z)
        (toks : list Token) (fuel : nat) (tok : cursor) (varid : nat)
        (num1 : Z) (tok2 : cursor) :
  Token.simpleMatch toks tok2 "} else { if (" = true ->
  Token.Match toks (tokAt toks tok2 4) "( %varid% ==|& %num% &&|%oror%|)"
    varid = true ->
  toLongNumber (strAt toks (tokAt toks tok2 4) 3) = 0%Z ->
  Z.land 0 num1 = 0%Z
  /\ exists rest,
       fst (multiCondition_chain toLongNumber toks (S fuel) tok varid num1
              tok2)
       = multiConditionError (tokAt toks tok2 4) (linenrOf toks tok) :: rest.
Proof.
  intros Hm Hlink Hzero. split; [apply Z.land_0_l|].
  cbn [multiCondition_chain]. rewrite Hm, Hlink, Hzero.
  rewrite Z.land_0_r. cbn [Z.ltb Z.eqb Z.compare].
  rewrite fst_let_pair. cbn [app]. eexists. reflexivity.
Qed.

Lemma multiCondition_reports_zero_link_witness :
  Z.land 0 6 = 0%Z
  /\ exists rest,
       fst (multiCondition_chain decodeLiteral ex_chain_zero 1 (Some 0) 1 6
              (Some 7))
       = multiConditionError (tokAt ex_chain_zero (Some 7) 4)
           (linenrOf ex_chain_zero (Some 0)) :: rest.
Proof.
  exact (multiCondition_reports_zero_link decodeLiteral ex_chain_zero 0
           (Some 0) 1 6 (Some 7) eq_refl eq_refl eq_refl).
Defined.

(** X11. On a token list with well-formed bracket links the chain walk
    visits no link twice and reports no finding twice. *)
Theorem multiCondition_chain_no_repeats (toLongNumber : string -> Z)
        (toks : list Token) (fuel : nat) (tok : cursor) (varid : nat)
        (num1 : Z) (tok2 : cursor) :
  well_formed_links toks = true ->
  NoDup (chain_links toks fuel tok2)
  /\ NoDup (fst (multiCondition_chain toLongNumber toks fuel tok varid num1
                   tok2)).
Proof.
  intros Hwf.
  pose proof (chain_links_NoDup toks fuel Hwf tok2) as Hnd.
  split; [exact Hnd|].
  rewrite multiCondition_chain_flat_map. now apply link_findings_NoDup.
Qed.

Lemma multiCondition_chain_no_repeats_witness :
  NoDup (chain_links ex_chain 5 (Some 7))
  /\ NoDup (fst (multiCondition_chain decodeLiteral ex_chain 5 (Some 0) 1 6
                   (Some 7))).
Proof.
  exact (multiCondition_chain_no_repeats decodeLiteral ex_chain 5 (Some 0)
           1 6 (Some 7) eq_refl).
Defined.

(** X12. A link whose open parenthesis has no matching token is checked
    like any other and ends the walk: the chain yields the findings of
    that link and finishes. *)
Theorem multiCondition_chain_missing_link (toLongNumber : string -> Z)
        (toks : list Token) (fuel : nat) (tok : cursor) (varid : nat)
        (num1 : Z) (tok2 : cursor) :
  Token.simpleMatch toks tok2 "} else { if (" = true ->
  linkOf toks (tokAt toks tok2 4) = None ->
  multiCondition_chain toLongNumber toks (S fuel) tok varid num1 tok2
  = (link_findings toLongNumber toks tok varid num1 (tokAt toks tok2 4),
     true).
Proof.
  intros Hm Hnull. cbn [multiCondition_chain]. rewrite Hm, Hnull.
  rewrite (simpleMatch_null toks _ _ _ words_close_open).
  rewrite multiCondition_chain_null, link_check_findings.
  now rewrite app_nil_r.
Qed.

Lemma multiCondition_chain_missing_link_witness :
  multiCondition_chain decodeLiteral ex_missing_link 1 (Some 0) 1 6 (Some 0)
  = ([multiConditionError (Some 4) 1], true).
Proof.
  rewrite (multiCondition_chain_missing_link decodeLiteral ex_missing_link 0
             (Some 0) 1 6 (Some 0) eq_refl eq_refl).
  reflexivity.
Defined.

(* ================================================================== *)
(** ** The inline-expression analysis: the rule                        *)
(* ================================================================== *)

(** X14. The rule of [comparison]: a candidate that matches the pattern
    with non-negative literals, and whose closing parenthesis, if there
    is one, has an open bracket that follows [(], [||] or [&&], is
    reported exactly when the bit test fails, with the operands and the
    verdict: always false for [==], always true for [!=]. *)
Theorem comparison_rule (toLongNumber : string -> Z) (toks : list Token)
        (tok cmp : nat) :
  let bitop := strOf toks (Some tok) in
  let num1 := toLongNumber (strAt toks (Some tok) 1) in
  let op := strOf toks (Some cmp) in
  let num2 := toLongNumber (strOf toks (Some (cmp + 1))) in
  Token.Match toks (Some tok) "&|%or% %num% )| ==|!= %num% &&|%oror%|)" 0
  = true ->
  (0 <= num1)%Z ->
  (0 <= num2)%Z ->
  ((cmp = tok + 2 /\ strOf toks (Some (tok + 2)) <> ")")
   \/ (cmp = tok + 3 /\ strOf toks (Some (tok + 2)) = ")"
       /\ exists l, linkOf toks (Some (tok + 2)) = Some l
                    /\ In (strOf toks (previous (Some l)))
                         ["("; "||"; "&&"])) ->
  comparison_at toLongNumber toks tok
  = if comparison_mismatch bitop num1 num2
    then Reported (comparisonError (Some tok) bitop num1 op num2
                     (if String.eqb op "==" then false else true))
    else Skipped.
Proof.
  intros bitop num1 op num2 Hm Hn1 Hn2 Hcmp.
  pose proof (Match_inline_shape toks tok Hm) as (_ & Hshape).
  assert (Hlen : tok + 4 < List.length toks)
    by (destruct Hshape as [(_ & _ & ?)|(_ & _ & ?)]; lia).
  unfold comparison_at. rewrite Hm. fold num1.
  destruct (Z.ltb_spec num1 0) as [|_]; [lia|].
  change 2%Z with (Z.of_nat 2). rewrite tokAt_forward by lia.
  assert (Hcheck : forall k, k = cmp ->
            comparison_check toLongNumber toks (Some tok) (Some k) num1
            = if comparison_mismatch bitop num1 num2
              then Reported (comparisonError (Some tok) bitop num1 op num2
                               (if String.eqb op "==" then false else true))
              else Skipped).
  { intros k ->. unfold comparison_check.
    change 1%Z with (Z.of_nat 1). rewrite strAt_forward_total. fold num2.
    destruct (Z.ltb_spec num2 0) as [|_]; [lia|]. reflexivity. }
  destruct Hcmp as [(Ec & Hnp)|(Ec & Hp & l & Hl & Hprev)].
  - destruct (String.eqb_spec (strOf toks (Some (tok + 2))) ")")
      as [|_]; [contradiction|].
    now apply Hcheck.
  - destruct (String.eqb_spec (strOf toks (Some (tok + 2))) ")")
      as [_|]; [|contradiction].
    rewrite Hl. apply Match_before_open in Hprev. rewrite Hprev.
    cbn [negb].
    assert (Hlen' : tok + 5 < List.length toks).
    { destruct Hshape as [(_ & _ & ?)|(Hnp & _)]; [assumption|].
      contradiction. }
    rewrite next_in_range by lia. apply Hcheck. lia.
Qed.

Lemma comparison_rule_witness :
  comparison_at decodeLiteral ex_inline 4
  = Reported (comparisonError (Some 4) "&" 16 "==" 17 false).
Proof.
  rewrite (comparison_rule decodeLiteral ex_inline 4 7 eq_refl
             ltac:(vm_compute; discriminate) ltac:(vm_compute; discriminate)).
  - reflexivity.
  - right. split; [reflexivity|]. split; [reflexivity|].
    exists 2. split; [reflexivity|]. left. reflexivity.
Defined.

Lemma comparison_loop_NoDup (toLongNumber : string -> Z) (toks : list Token)
      (positions : list nat) :
  NoDup positions ->
  NoDup (fst (comparison_loop toLongNumber toks positions)).
Proof.
  induction 1 as [|tok rest Hnotin Hnd IH]; cbn [comparison_loop];
    [constructor|].
  destruct (comparison_at toLongNumber toks tok) as [|g|] eqn:E;
    [exact IH| |constructor].
  destruct (comparison_loop toLongNumber toks rest) as [fs ok] eqn:El.
  cbn [fst] in *. constructor; [|exact IH].
  intros Hin.
  assert (Hin' : In g (fst (comparison_loop toLongNumber toks rest)))
    by now rewrite El.
  apply comparison_loop_findings in Hin' as (k & Hk & Ek).
  apply comparison_at_anchor in E as [E _].
  apply comparison_at_anchor in Ek as [Ek _].
  rewrite E in Ek. inversion Ek. congruence.
Qed.

(** X15. [comparison] reports no candidate twice: its findings are
    pairwise different, each being anchored at its own [&] or [|]
    token. *)
Theorem comparison_no_repeats (toLongNumber : string -> Z)
        (toks : list Token) (settings : Settings) :
  NoDup (fst (comparison toLongNumber toks settings)).
Proof.
  unfold comparison. destruct (negb _); [constructor|].
  apply comparison_loop_NoDup, seq_NoDup.
Qed.
